(** * Pet House clinic server: scheduling, duplicate detection, reminders

    A shallow embedding of the request handlers of
    [src/supabase/functions/server/index.tsx], of the reminder job of
    [src/supabase/functions/server/send_reminders.tsx], of the slot calendar,
    its availability check and the lists it loads in
    [src/components/AppointmentManagement.tsx]
    and of the vaccination flag of [src/components/OwnerDashboard.tsx].

    The handlers are JavaScript over untyped JSON documents kept in a
    key-value table.  Records are therefore modelled as JSON objects (finite
    maps from field names to values), object spreads as map unions, and the
    [try { ... } catch { return 500 }] envelope of every route as a small
    state-and-exception monad over the table. *)

From stdpp Require Import gmap strings list fin_maps pretty.

Set Warnings "-register-all".
Local Open Scope Z_scope.

(** ** JavaScript values *)

Module JS.

(** The values a parsed JSON body or a stored record can hold, plus
    [undefined] (what reading an absent property gives).  Numbers are the
    integers: no handler computes with a fractional number. *)
Inductive value :=
| VUndef
| VNull
| VBool (b : bool)
| VNum (n : Z)
| VStr (s : string)
| VArr (items : list value)
| VObj (fields : gmap string value).

Abbreviation obj := (gmap string value).

(** [o.k] on an object. *)
Definition field (o : obj) (k : string) : value := default VUndef (o !! k).

(** ToBoolean: what [if (v)], [!v], [&&] and [||] test. *)
Definition truthy (v : value) : bool :=
  match v with
  | VUndef | VNull => false
  | VBool b => b
  | VNum n => negb (n =? 0)
  | VStr s => negb (String.eqb s "")
  | VArr _ | VObj _ => true
  end.

(** [a === b].  Arrays and objects compare by identity; the two sides of
    every comparison in the handlers come from different documents, so two
    of them are never the same reference. *)
Definition strict_eq (a b : value) : bool :=
  match a, b with
  | VUndef, VUndef | VNull, VNull => true
  | VBool x, VBool y => Bool.eqb x y
  | VNum x, VNum y => x =? y
  | VStr x, VStr y => String.eqb x y
  | _, _ => false
  end.

(** [a || b] *)
Definition js_or (a b : value) : value := if truthy a then a else b.

Fixpoint join (sep : string) (l : list string) : string :=
  match l with
  | [] => ""
  | [x] => x
  | x :: rest => x +:+ sep +:+ join sep rest
  end.

(** ToString, as a template literal applies it.  Integers print in decimal
    (JavaScript switches to exponent notation from 10^21 on, far above any
    time value or id component). *)
Fixpoint js_toString (v : value) : string :=
  match v with
  | VUndef => "undefined"
  | VNull => "null"
  | VBool true => "true"
  | VBool false => "false"
  | VNum n => pretty n
  | VStr s => s
  | VArr items =>
      join "," (map (fun e => match e with
                              | VUndef | VNull => ""
                              | _ => js_toString e
                              end) items)
  | VObj _ => "[object Object]"
  end.

(** *** Dates

    A [Date] is its time value: milliseconds since the epoch, or [None] for
    an Invalid Date (time value NaN).  Time values are integers of magnitude
    at most 8.64e15, so differences and comparisons in [Z] agree with the
    double arithmetic of the source. *)

Definition msPerDay : Z := 1000 * 60 * 60 * 24.

Definition TimeClip (n : Z) : option Z :=
  if Z.abs n <=? 8640000000000000 then Some n else None.

(** Proleptic Gregorian date of a day number counted from 1970-01-01. *)
Definition civil_from_days (days : Z) : Z * Z * Z :=
  let z := days + 719468 in
  let era := z / 146097 in
  let doe := z - era * 146097 in
  let yoe := (doe - doe / 1460 + doe / 36524 - doe / 146096) / 365 in
  let doy := doe - (365 * yoe + yoe / 4 - yoe / 100) in
  let mp := (5 * doy + 2) / 153 in
  let d := doy - (153 * mp + 2) / 5 + 1 in
  let m := if mp <? 10 then mp + 3 else mp - 9 in
  let y := yoe + era * 400 + (if m <=? 2 then 1 else 0) in
  (y, m, d).

Definition days_from_civil (y m d : Z) : Z :=
  let y' := if m <=? 2 then y - 1 else y in
  let era := y' / 400 in
  let yoe := y' - era * 400 in
  let doy := (153 * (if 2 <? m then m - 3 else m + 9) + 2) / 5 + d - 1 in
  let doe := yoe * 365 + yoe / 4 - yoe / 100 + doy in
  era * 146097 + doe - 719468.

(** Decimal numeral of a non-negative integer, zero-padded to [w] digits. *)
Definition pad (w : nat) (n : Z) : string :=
  let s := pretty n in
  String.concat "" (replicate (w - String.length s) "0") +:+ s.

Definition year_string (y : Z) : string :=
  if (0 <=? y) && (y <=? 9999) then pad 4 y
  else (if y <? 0 then "-" else "+") +:+ pad 6 (Z.abs y).

(** [Date.prototype.toISOString] on a valid time value. *)
Definition toISOString (t : Z) : string :=
  let '(y, m, d) := civil_from_days (t / msPerDay) in
  let r := t mod msPerDay in
  year_string y +:+ "-" +:+ pad 2 m +:+ "-" +:+ pad 2 d +:+ "T"
  +:+ pad 2 (r / 3600000) +:+ ":" +:+ pad 2 (r / 60000 mod 60) +:+ ":"
  +:+ pad 2 (r / 1000 mod 60) +:+ "." +:+ pad 3 (r mod 1000) +:+ "Z".

(** [s.slice(0, 10)] *)
Definition slice_0_10 (s : string) : string := String.substring 0 10 s.

(** [Math.ceil(d / (1000 * 60 * 60 * 24))] for an integer [d]. *)
Definition ceil_days (d : Z) : Z := - ((- d) / msPerDay).

(** What the handlers take from the JavaScript host and its locale: the
    parser behind [new Date(string)] (implementation-defined outside the ISO
    format), [String.prototype.toLowerCase], and local midnight,
    [new Date(t).setHours(0, 0, 0, 0)]. *)
Class Runtime := {
  Date_parse : string -> option Z;
  toLowerCase : string -> string;
  startOfLocalDay : Z -> Z
}.

Section WithRuntime.
Context `{RT : Runtime}.

(** Time value of [new Date(v)]. *)
Definition new_Date (v : value) : option Z :=
  match v with
  | VUndef => None
  | VNull => Some 0
  | VBool b => Some (if b then 1 else 0)
  | VNum n => TimeClip n
  | VStr s => Date_parse s
  | VArr _ | VObj _ => Date_parse (js_toString v)
  end.

(** [(v || '').toLowerCase()]; [None] is the TypeError raised when the
    receiver is not a string. *)
Definition lower_or_empty (v : value) : option string :=
  match js_or v (VStr "") with
  | VStr s => Some (toLowerCase s)
  | _ => None
  end.
End WithRuntime.

End JS.

Import JS.

(** ** The record store *)

Module KV.

(** Modelled from the spec: the key-value module [kv_store.tsx] the server
    imports is not among the sources.  Section 4.1 of the specification gives
    its contract: point [get]/[set]/[delete], an order-preserving [multiGet]
    of the same length as its input, and a prefix scan.  Every value the
    server writes is an object. *)
Abbreviation store := (gmap string obj).

Definition get (s : store) (key : string) : option obj := s !! key.

Definition set (key : string) (v : obj) (s : store) : store := <[key := v]> s.

Definition del (key : string) (s : store) : store := delete key s.

Definition mget (s : store) (keys : list string) : list (option obj) :=
  map (get s) keys.

Definition getByPrefix (s : store) (prefix : string) : list obj :=
  omap (fun kv => if String.prefix prefix kv.1 then Some kv.2 else None)
       (map_to_list s).

End KV.

(** ** Route handlers as store computations *)

(** [c.json(payload, status)] *)
Record response := Json { status : Z; payload : obj }.

(** A step of a route either goes on with a value, returns a response early,
    or throws into the route's [catch]. Writes made before a throw stay. *)
Inductive outcome (A : Type) :=
| Next (a : A)
| Reply (r : response)
| Raise.
Arguments Next {A} a.
Arguments Reply {A} r.
Arguments Raise {A}.

Definition route (A : Type) : Type := KV.store -> outcome A * KV.store.

#[export] Instance route_ret : MRet route := fun A a s => (Next a, s).

#[export] Instance route_bind : MBind route := fun A B k m s =>
  match m s with
  | (Next a, s') => k a s'
  | (Reply r, s') => (Reply r, s')
  | (Raise, s') => (Raise, s')
  end.

Definition reply {A} (r : response) : route A := fun s => (Reply r, s).
Definition raise {A} : route A := fun s => (Raise, s).

(** [try { body } catch { return on_error }] *)
Definition try_catch (body : route response) (on_error : response)
  : KV.store -> response * KV.store := fun s =>
  match body s with
  | (Next r, s') | (Reply r, s') => (r, s')
  | (Raise, s') => (on_error, s')
  end.

Definition error (msg : string) : obj := {[ "error" := VStr msg ]}.

(** [supabase.auth.getUser(accessToken)] resolved by the caller: the id of
    the authenticated user, if any. *)
Definition getUser (user : option string) : route string :=
  match user with
  | Some uid => mret uid
  | None => reply (Json 401 (error "Unauthorized"))
  end.

(** [await c.req.json()]; a payload that is not JSON throws. *)
Definition req_json (body : option obj) : route obj :=
  match body with
  | Some o => mret o
  | None => raise
  end.

Definition kv_get (key : string) : route (option obj) :=
  fun s => (Next (KV.get s key), s).

Definition kv_set (key : string) (v : obj) : route unit :=
  fun s => (Next tt, KV.set key v s).

Definition kv_del (key : string) : route unit :=
  fun s => (Next tt, KV.del key s).

Definition kv_getByPrefix (prefix : string) : route (list obj) :=
  fun s => (Next (KV.getByPrefix s prefix), s).

(** [kv.mget(v)] on a field value: the ids of an index list. Anything but an
    array makes the call throw. *)
Definition kv_mget (keys : value) : route (list (option obj)) :=
  match keys with
  | VArr ids => fun s => (Next (KV.mget s (map js_toString ids)), s)
  | _ => raise
  end.

(** [kv.get(key) || dflt] *)
Definition kv_get_or (key : string) (dflt : obj) : route obj :=
  o ← kv_get key; mret (default dflt o).

(** [v.push(x)]: a TypeError unless [v] is an array. *)
Definition push (v x : value) : route value :=
  match v with
  | VArr items => mret (VArr (items ++ [x]))
  | _ => raise
  end.

(** [profile.role !== 'staff' && profile.role !== 'admin'] *)
Definition not_staff (profile : obj) : bool :=
  negb (strict_eq (field profile "role") (VStr "staff"))
  && negb (strict_eq (field profile "role") (VStr "admin")).

(** ** The server routes *)

Section Server.
Context `{RT : Runtime}.

(** *** Pets *)

(** The predicate of [existingPets.find] in [POST /pets]; [None] when a
    [toLowerCase] call throws. *)
Definition is_duplicate (petData : obj) (p : option obj) : option bool :=
  match p with
  | None => Some false
  | Some p =>
      if truthy (field petData "microchipId")
         && truthy (field p "microchipId")
         && strict_eq (field p "microchipId") (field petData "microchipId")
      then Some true
      else
        pName ← lower_or_empty (field p "name");
        cName ← lower_or_empty (field petData "name");
        pSpecies ← lower_or_empty (field p "species");
        cSpecies ← lower_or_empty (field petData "species");
        pBreed ← lower_or_empty (field p "breed");
        cBreed ← lower_or_empty (field petData "breed");
        let sameName := String.eqb pName cName in
        let sameSpecies := String.eqb pSpecies cSpecies in
        let sameBreed := String.eqb pBreed cBreed in
        let sameDob := strict_eq (js_or (field p "dateOfBirth") (VStr ""))
                                 (js_or (field petData "dateOfBirth") (VStr "")) in
        Some (sameName && sameSpecies && sameBreed && sameDob)
  end.

(** [Array.prototype.find] with a predicate that may throw: the first
    element the predicate accepts. *)
Fixpoint find_first {A} (f : A -> option bool) (l : list A)
  : option (option A) :=
  match l with
  | [] => Some None
  | x :: rest =>
      match f x with
      | None => None
      | Some true => Some (Some x)
      | Some false => find_first f rest
      end
  end.

Definition find_duplicate (petData : obj) (existingPets : list (option obj))
  : route (option obj) :=
  match find_first (is_duplicate petData) existingPets with
  | None => raise
  | Some found => mret (mjoin found)
  end.

(** [app.post('/pets')] *)
Definition createPet (user : option string) (body : option obj) (now : Z)
  : KV.store -> response * KV.store :=
  try_catch
    (uid ← getUser user;
     petData ← req_json body;
     let petId := "pet:" +:+ uid +:+ ":" +:+ pretty now in
     userPets ← kv_get_or ("user:" +:+ uid +:+ ":pets") {[ "petIds" := VArr [] ]};
     existingPets ← kv_mget (field userPets "petIds");
     duplicate ← find_duplicate petData existingPets;
     match duplicate with
     | Some dup =>
         reply (Json 409 (<[ "pet" := VObj dup ]> (error "Duplicate pet exists")))
     | None =>
         let pet :=
           <[ "updatedAt" := VStr (toISOString now) ]>
             (<[ "createdAt" := VStr (toISOString now) ]>
                (petData ∪ {[ "id" := VStr petId; "ownerId" := VStr uid ]})) in
         kv_set petId pet;;
         userPetsAfter ← kv_get_or ("user:" +:+ uid +:+ ":pets") {[ "petIds" := VArr [] ]};
         petIds ← push (field userPetsAfter "petIds") (VStr petId);
         kv_set ("user:" +:+ uid +:+ ":pets") (<[ "petIds" := petIds ]> userPetsAfter);;
         mret (Json 200 {[ "pet" := VObj pet ]})
     end)
    (Json 500 (error "Failed to create pet profile")).

(** [pet.ownerId !== user.id && profile.role !== 'staff' &&
    profile.role !== 'admin'], where reading [profile.role] throws when
    there is no profile. *)
Definition not_owner_nor_staff (owner : value) (uid : string)
    (profile : option obj) : route bool :=
  if strict_eq owner (VStr uid) then mret false
  else match profile with
       | Some pr => mret (not_staff pr)
       | None => raise
       end.

(** [(v || []).filter(id => id !== petId)] *)
Definition without (v : value) (petId : string) : route value :=
  match js_or v (VArr []) with
  | VArr ids => mret (VArr (List.filter (fun id => negb (strict_eq id (VStr petId))) ids))
  | _ => raise
  end.

(** [app.delete('/pets/:petId')] *)
Definition deletePet (user : option string) (petId : string)
  : KV.store -> response * KV.store :=
  try_catch
    (uid ← getUser user;
     found ← kv_get petId;
     match found with
     | None => reply (Json 404 (error "Pet not found"))
     | Some pet =>
         profile ← kv_get ("user:" +:+ uid);
         forbidden ← not_owner_nor_staff (field pet "ownerId") uid profile;
         if (forbidden : bool)
         then reply (Json 403 (error "Forbidden: only owner or staff may delete"))
         else
           kv_del petId;;
           let ownerPetsKey := "user:" +:+ js_toString (field pet "ownerId") +:+ ":pets" in
           ownerPets ← kv_get_or ownerPetsKey {[ "petIds" := VArr [] ]};
           petIds ← without (field ownerPets "petIds") petId;
           kv_set ownerPetsKey (<[ "petIds" := petIds ]> ownerPets);;
           mret (Json 200 {[ "deleted" := VStr petId ]})
     end)
    (Json 500 (error "Failed to delete pet")).

(** *** Health records *)

(** [app.post('/health-records')] *)
Definition createHealthRecord (user : option string) (body : option obj)
    (now : Z) : KV.store -> response * KV.store :=
  try_catch
    (uid ← getUser user;
     recordData ← req_json body;
     let petId := js_toString (field recordData "petId") in
     let recordId := "record:" +:+ petId +:+ ":" +:+ pretty now in
     let record :=
       <[ "createdAt" := VStr (toISOString now) ]>
         (<[ "addedBy" := VStr uid ]>
            (recordData ∪ {[ "id" := VStr recordId ]})) in
     kv_set recordId record;;
     petRecords ← kv_get_or (petId +:+ ":records") {[ "recordIds" := VArr [] ]};
     recordIds ← push (field petRecords "recordIds") (VStr recordId);
     kv_set (petId +:+ ":records") (<[ "recordIds" := recordIds ]> petRecords);;
     mret (Json 200 {[ "record" := VObj record ]}))
    (Json 500 (error "Failed to create health record")).

(** *** Appointments *)

(** The 30 minutes buffer test, the predicate of [allAppointments.some] in
    [POST /appointments] and of [appointments.some] in [isSlotAvailable].
    A comparison with NaN is false. *)
Definition in_buffer (requestedTime : option Z) (apt : obj) : bool :=
  if strict_eq (field apt "status") (VStr "cancelled") then false
  else match new_Date (field apt "dateTime"), requestedTime with
       | Some aptTime, Some requested =>
           Z.abs (aptTime - requested) <? 30 * 60 * 1000
       | _, _ => false
       end.

(** [new Date(v).toISOString().slice(0,10)]; a RangeError on an Invalid
    Date. *)
Definition iso_date (t : option Z) : route string :=
  match t with
  | Some t => mret (slice_0_10 (toISOString t))
  | None => raise
  end.

Definition on_date (dateStr : string) (b : obj) : bool :=
  strict_eq (field b "date") (VStr dateStr).

Definition is_staff (profile : option obj) : bool :=
  match profile with
  | Some pr => strict_eq (field pr "role") (VStr "staff")
               || strict_eq (field pr "role") (VStr "admin")
  | None => false
  end.

(** The owner ([userId]) of a new appointment. *)
Definition resolve_owner (uid : string) (appointmentData : obj) : route value :=
  creatorProfile ← kv_get ("user:" +:+ uid);
  if is_staff creatorProfile && truthy (field appointmentData "petId")
  then
    found ← kv_get (js_toString (field appointmentData "petId"));
    match found with
    | None => reply (Json 404 (error "Pet not found"))
    | Some pet =>
        mret (if truthy (field pet "ownerId") then field pet "ownerId" else VStr uid)
    end
  else mret (VStr uid).

(** [app.post('/appointments')] *)
Definition createAppointment (user : option string) (body : option obj)
    (now : Z) : KV.store -> response * KV.store :=
  try_catch
    (uid ← getUser user;
     appointmentData ← req_json body;
     let appointmentId := "appointment:" +:+ pretty now in
     allAppointments ← kv_getByPrefix "appointment:";
     allBlocks ← kv_getByPrefix "block:";
     let requestedTime := new_Date (field appointmentData "dateTime") in
     let conflict := existsb (in_buffer requestedTime) allAppointments in
     requestedDateStr ← iso_date requestedTime;
     let blocked := existsb (on_date requestedDateStr) allBlocks in
     if blocked
     then reply (Json 409 (error "Time slot unavailable - clinic blocked on this date"))
     else if conflict
     then reply (Json 409 (error "Time slot unavailable - conflicts with existing appointment"))
     else
       appointmentUserId ← resolve_owner uid appointmentData;
       let appointment :=
         <[ "updatedAt" := VStr (toISOString now) ]>
           (<[ "createdAt" := VStr (toISOString now) ]>
              (<[ "status" := VStr "pending" ]>
                 (appointmentData
                    ∪ {[ "id" := VStr appointmentId; "userId" := appointmentUserId ]}))) in
       kv_set appointmentId appointment;;
       let indexKey := "user:" +:+ js_toString appointmentUserId +:+ ":appointments" in
       userAppointments ← kv_get_or indexKey {[ "appointmentIds" := VArr [] ]};
       ids ← push (field userAppointments "appointmentIds") (VStr appointmentId);
       kv_set indexKey (<[ "appointmentIds" := ids ]> userAppointments);;
       mret (Json 200 {[ "appointment" := VObj appointment ]}))
    (Json 500 (error "Failed to create appointment")).

(** [app.put('/appointments/:appointmentId')] *)
Definition updateAppointment (user : option string) (appointmentId : string)
    (body : option obj) (now : Z) : KV.store -> response * KV.store :=
  try_catch
    (uid ← getUser user;
     updates ← req_json body;
     found ← kv_get appointmentId;
     match found with
     | None => reply (Json 404 (error "Appointment not found"))
     | Some appointment =>
         profile ← kv_get ("user:" +:+ uid);
         forbidden ← not_owner_nor_staff (field appointment "userId") uid profile;
         if (forbidden : bool)
         then reply (Json 403 (error "Forbidden"))
         else
           let updatedAppointment :=
             <[ "updatedAt" := VStr (toISOString now) ]> (updates ∪ appointment) in
           kv_set appointmentId updatedAppointment;;
           mret (Json 200 {[ "appointment" := VObj updatedAppointment ]})
     end)
    (Json 500 (error "Failed to update appointment")).
(** *** Reminders *)

Fixpoint contains (needle hay : string) : bool :=
  String.prefix needle hay
  || match hay with
     | EmptyString => false
     | String _ rest => contains needle rest
     end.

(** [(v || []).includes(h)]: membership in an array, the substring test on
    a string, a TypeError on anything else. *)
Definition includes (v : value) (h : string) : option bool :=
  match js_or v (VArr []) with
  | VArr items => Some (existsb (strict_eq (VStr h)) items)
  | VStr s => Some (contains h s)
  | _ => None
  end.

(** The id under which an appointment reminder is dismissed. *)
Definition appointment_hash (apt : obj) : string :=
  match field apt "id" with
  | VStr id => if String.prefix "appointment:" id then id else "appointment:" +:+ id
  | v => "appointment:" +:+ js_toString v
  end.

Definition priority_of (high : bool) : value :=
  VStr (if high then "high" else "medium").

(** Body of the [forEach] over the pending appointments: the reminder it
    pushes, if any; the outer [None] is a throw. *)
Definition appointmentReminder (dismissedHashes : value) (now : Z) (apt : obj)
  : option (option obj) :=
  match new_Date (field apt "dateTime") with
  | None => Some None
  | Some aptTime =>
      let daysUntil := ceil_days (aptTime - now) in
      if (daysUntil <=? 7) && (0 <=? daysUntil)
      then
        let h := appointment_hash apt in
        dismissed ← includes dismissedHashes h;
        Some (if (dismissed : bool) then None
              else Some (<[ "id" := VStr h ]>
                        (<[ "type" := VStr "appointment" ]>
                        (<[ "petId" := field apt "petId" ]>
                        (<[ "appointmentId" := field apt "id" ]>
                        (<[ "message" := VStr ("Upcoming appointment in "
                                               +:+ pretty daysUntil +:+ " days") ]>
                        (<[ "dateTime" := field apt "dateTime" ]>
                        {[ "priority" := priority_of (daysUntil <=? 1) ]})))))))
      else Some None
  end.

Definition vaccination_hash (pet : obj) : string :=
  "vaccination:" +:+ js_toString (field pet "id") +:+ ":"
  +:+ js_toString (field pet "nextVaccinationDate").

(** Body of the [forEach] over the pets that have a next vaccination
    date. *)
Definition vaccinationReminder (dismissedHashes : value) (now : Z) (pet : obj)
  : option (option obj) :=
  match new_Date (field pet "nextVaccinationDate") with
  | None => Some None
  | Some vacDate =>
      let daysUntil := ceil_days (vacDate - now) in
      if (daysUntil <=? 14) && (-7 <=? daysUntil)
      then
        let h := vaccination_hash pet in
        dismissed ← includes dismissedHashes h;
        Some (if (dismissed : bool) then None
              else Some (<[ "id" := VStr h ]>
                        (<[ "type" := VStr "vaccination" ]>
                        (<[ "petId" := field pet "id" ]>
                        (<[ "petName" := field pet "name" ]>
                        (<[ "message" := VStr
                              (if 0 <=? daysUntil
                               then js_toString (field pet "name")
                                    +:+ "'s vaccination due in "
                                    +:+ pretty daysUntil +:+ " days"
                               else js_toString (field pet "name")
                                    +:+ "'s vaccination is "
                                    +:+ pretty (Z.abs daysUntil)
                                    +:+ " days overdue") ]>
                        (<[ "dateTime" := field pet "nextVaccinationDate" ]>
                        {[ "priority" := priority_of (daysUntil <=? 0) ]})))))))
      else Some None
  end.

(** [l.forEach(x => { ... reminders.push(r) ... })]: the reminders pushed,
    in order; [None] if an iteration throws. *)
Fixpoint pushed {A} (f : A -> option (option obj)) (l : list A)
  : option (list obj) :=
  match l with
  | [] => Some []
  | x :: rest =>
      r ← f x;
      rs ← pushed f rest;
      Some (match r with Some o => o :: rs | None => rs end)
  end.

Definition or_raise {A} (o : option A) : route A :=
  match o with
  | Some a => mret a
  | None => raise
  end.

(** [a !== null && a.status === 'pending'] *)
Definition is_pending (a : option obj) : option obj :=
  a ≫= fun a => if strict_eq (field a "status") (VStr "pending") then Some a else None.

(** [p !== null && p.nextVaccinationDate] *)
Definition has_vaccination_date (p : option obj) : option obj :=
  p ≫= fun p => if truthy (field p "nextVaccinationDate") then Some p else None.

(** [app.get('/reminders')] *)
Definition getReminders (user : option string) (now : Z)
  : KV.store -> response * KV.store :=
  try_catch
    (uid ← getUser user;
     userPets ← kv_get_or ("user:" +:+ uid +:+ ":pets") {[ "petIds" := VArr [] ]};
     pets ← kv_mget (field userPets "petIds");
     userAppointments ← kv_get_or ("user:" +:+ uid +:+ ":appointments")
                                  {[ "appointmentIds" := VArr [] ]};
     appointments ← kv_mget (field userAppointments "appointmentIds");
     dismissed ← kv_get_or ("user:" +:+ uid +:+ ":dismissed_reminders")
                           {[ "hashes" := VArr [] ]};
     let dismissedHashes := field dismissed "hashes" in
     fromAppointments ← or_raise (pushed (appointmentReminder dismissedHashes now)
                                         (omap is_pending appointments));
     fromPets ← or_raise (pushed (vaccinationReminder dismissedHashes now)
                                 (omap has_vaccination_date pets));
     mret (Json 200 {[ "reminders" := VArr (VObj <$> (fromAppointments ++ fromPets)) ]}))
    (Json 500 (error "Failed to fetch reminders")).

(** *** Dashboard *)

(** [!profile || (profile.role !== 'staff' && profile.role !== 'admin')] *)
Definition staff_required (profile : option obj) : bool :=
  match profile with
  | None => true
  | Some pr => not_staff pr
  end.

Definition today_filter (today : Z) (apt : obj) : bool :=
  match new_Date (field apt "dateTime") with
  | Some t => startOfLocalDay t =? today
  | None => false
  end.

Definition week_filter (weekAgo now : Z) (apt : obj) : bool :=
  match new_Date (field apt "dateTime") with
  | Some aptDate => (weekAgo <=? aptDate) && (aptDate <=? now)
  | None => false
  end.

Definition missed_filter (now : Z) (apt : obj) : bool :=
  strict_eq (field apt "status") (VStr "pending")
  && match new_Date (field apt "dateTime") with
     | Some aptTime => aptTime <? now
     | None => false
     end.

Definition vaccination_due (now : Z) (pet : obj) : bool :=
  if truthy (field pet "nextVaccinationDate")
  then match new_Date (field pet "nextVaccinationDate") with
       | Some vacDate =>
           let daysUntil := ceil_days (vacDate - now) in
           (daysUntil <=? 14) && (-7 <=? daysUntil)
       | None => false
       end
  else false.

Definition count {A} (l : list A) : value := VNum (Z.of_nat (length l)).

(** [app.get('/dashboard/stats')] *)
Definition getDashboardStats (user : option string) (now : Z)
  : KV.store -> response * KV.store :=
  try_catch
    (uid ← getUser user;
     profile ← kv_get ("user:" +:+ uid);
     if staff_required profile
     then reply (Json 403 (error "Forbidden: Staff access required"))
     else
       allAppointments ← kv_getByPrefix "appointment:";
       allPets ← kv_getByPrefix "pet:";
       allUsers ← kv_getByPrefix "user:";
       let today := startOfLocalDay now in
       let weekAgo := today - 7 * 24 * 60 * 60 * 1000 in
       let todayAppointments := List.filter (today_filter today) allAppointments in
       let weekAppointments := List.filter (week_filter weekAgo now) allAppointments in
       let missedAppointments := List.filter (missed_filter now) allAppointments in
       let vaccinationsDue := List.filter (vaccination_due now) allPets in
       let stats : obj :=
         <[ "totalPets" := count allPets ]>
         (<[ "totalClients" :=
               count (List.filter (fun u => strict_eq (field u "role") (VStr "owner"))
                                  allUsers) ]>
         (<[ "todayAppointments" := count todayAppointments ]>
         (<[ "weekAppointments" := count weekAppointments ]>
         (<[ "pendingAppointments" :=
               count (List.filter (fun a => strict_eq (field a "status") (VStr "pending"))
                                  allAppointments) ]>
         (<[ "completedAppointments" :=
               count (List.filter (fun a => strict_eq (field a "status") (VStr "completed"))
                                  allAppointments) ]>
         (<[ "missedAppointments" := count missedAppointments ]>
         (<[ "vaccinationsDue" := count vaccinationsDue ]>
         {[ "recentActivity" := VArr (VObj <$> take 10 weekAppointments) ]}))))))) in
       mret (Json 200 {[ "stats" := VObj stats ]}))
    (Json 500 (error "Failed to fetch dashboard stats")).
End Server.

(** ** The booking screen *)

Section Client.
Context `{RT : Runtime}.

End Client.

(** ** The other routes of the server *)

(** What [supabase.auth.admin.createUser] answered to a sign-up: an error
    with its message, or the user it created. The identity provider is not
    part of the server; its answer is an input of the route. *)
Inductive auth_result :=
| AuthError (message : value)
| AuthCreated (user : obj).

Section OtherRoutes.
Context `{RT : Runtime}.

(** [owner?.name] *)
Definition opt_field (o : option obj) (name : string) : value :=
  match o with
  | Some o => field o name
  | None => VUndef
  end.

(** The staff gate that opens the staff-only routes. *)
Definition require_staff (uid : string) : route unit :=
  profile ← kv_get ("user:" +:+ uid);
  if staff_required profile
  then reply (Json 403 (error "Forbidden: Staff access required"))
  else mret tt.

(** [app.post('/signup')] *)
Definition signup (body : option obj) (created : auth_result) (now : Z)
  : KV.store -> response * KV.store :=
  try_catch
    (credentials ← req_json body;
     match created with
     | AuthError message => reply (Json 400 {[ "error" := message ]})
     | AuthCreated user =>
         kv_set ("user:" +:+ js_toString (field user "id"))
                (<[ "id" := field user "id" ]>
                 (<[ "email" := field credentials "email" ]>
                 (<[ "name" := field credentials "name" ]>
                 (<[ "role" := js_or (field credentials "role") (VStr "owner") ]>
                 {[ "createdAt" := VStr (toISOString now) ]}))));;
         mret (Json 200 {[ "user" := VObj user ]})
     end)
    (Json 500 (error "Failed to create account")).

(** [app.get('/profile')] *)
Definition getProfile (user : option string) : KV.store -> response * KV.store :=
  try_catch
    (uid ← getUser user;
     profile ← kv_get ("user:" +:+ uid);
     match profile with
     | None => reply (Json 401 (error "Profile not found"))
     | Some profile => mret (Json 200 {[ "profile" := VObj profile ]})
     end)
    (Json 500 (error "Failed to fetch profile")).

(** [app.get('/pets')] *)
Definition getPets (user : option string) : KV.store -> response * KV.store :=
  try_catch
    (uid ← getUser user;
     userPets ← kv_get_or ("user:" +:+ uid +:+ ":pets") {[ "petIds" := VArr [] ]};
     pets ← kv_mget (field userPets "petIds");
     mret (Json 200 {[ "pets" := VArr (VObj <$> omap id pets) ]}))
    (Json 500 (error "Failed to fetch pets")).

(** The owner columns [GET /pets/all] adds to a pet. *)
Definition enrich (s : KV.store) (pet : obj) : obj :=
  let owner := KV.get s ("user:" +:+ js_toString (field pet "ownerId")) in
  <[ "ownerPhone" := opt_field owner "phone" ]>
    (<[ "ownerEmail" := opt_field owner "email" ]>
       (<[ "ownerName" := opt_field owner "name" ]> pet)).

(** [Promise.all(allPets.map(async pet => ...))]: every pet with its owner
    columns, read from the store. *)
Definition kv_enrich (allPets : list obj) : route (list obj) :=
  fun s => (Next (enrich s <$> allPets), s).

(** [app.get('/pets/all')] *)
Definition getAllPets (user : option string) : KV.store -> response * KV.store :=
  try_catch
    (uid ← getUser user;
     require_staff uid;;
     allPets ← kv_getByPrefix "pet:";
     enriched ← kv_enrich allPets;
     mret (Json 200 {[ "pets" := VArr (VObj <$> enriched) ]}))
    (Json 500 (error "Failed to fetch all pets")).

(** [app.post('/blocks')] *)
Definition createBlock (user : option string) (body : option obj) (now : Z)
  : KV.store -> response * KV.store :=
  try_catch
    (uid ← getUser user;
     require_staff uid;;
     payload ← req_json body;
     let date := field payload "date" in
     if negb (truthy date) then reply (Json 400 (error "Date required"))
     else
       let blockId := "block:" +:+ js_toString date in
       let block : obj :=
         <[ "id" := VStr blockId ]>
         (<[ "date" := date ]>
         (<[ "notes" := js_or (field payload "notes") (VStr "") ]>
         (<[ "createdAt" := VStr (toISOString now) ]>
         {[ "createdBy" := VStr uid ]}))) in
       kv_set blockId block;;
       mret (Json 200 {[ "block" := VObj block ]}))
    (Json 500 (error "Failed to create block")).

(** [app.get('/blocks')] *)
Definition getBlocks (user : option string) : KV.store -> response * KV.store :=
  try_catch
    (uid ← getUser user;
     require_staff uid;;
     blocks ← kv_getByPrefix "block:";
     mret (Json 200 {[ "blocks" := VArr (VObj <$> blocks) ]}))
    (Json 500 (error "Failed to fetch blocks")).

(** [app.delete('/blocks/:blockId')] *)
Definition deleteBlock (user : option string) (blockId : string)
  : KV.store -> response * KV.store :=
  try_catch
    (uid ← getUser user;
     require_staff uid;;
     kv_del blockId;;
     mret (Json 200 {[ "deleted" := VStr blockId ]}))
    (Json 500 (error "Failed to delete block")).

(** [app.put('/pets/:petId')] *)
Definition updatePet (user : option string) (petId : string) (body : option obj)
    (now : Z) : KV.store -> response * KV.store :=
  try_catch
    (uid ← getUser user;
     updates ← req_json body;
     found ← kv_get petId;
     match found with
     | None => reply (Json 404 (error "Pet not found"))
     | Some pet =>
         profile ← kv_get ("user:" +:+ uid);
         forbidden ← not_owner_nor_staff (field pet "ownerId") uid profile;
         if (forbidden : bool)
         then reply (Json 403 (error "Forbidden"))
         else
           let updatedPet :=
             <[ "updatedAt" := VStr (toISOString now) ]> (updates ∪ pet) in
           kv_set petId updatedPet;;
           mret (Json 200 {[ "pet" := VObj updatedPet ]})
     end)
    (Json 500 (error "Failed to update pet")).

(** [app.get('/health-records/:petId')] *)
Definition getHealthRecords (user : option string) (petId : string)
  : KV.store -> response * KV.store :=
  try_catch
    (uid ← getUser user;
     found ← kv_get petId;
     match found with
     | None => reply (Json 404 (error "Pet not found"))
     | Some pet =>
         profile ← kv_get ("user:" +:+ uid);
         forbidden ← not_owner_nor_staff (field pet "ownerId") uid profile;
         if (forbidden : bool)
         then reply (Json 403 (error "Forbidden"))
         else
           petRecords ← kv_get_or (petId +:+ ":records") {[ "recordIds" := VArr [] ]};
           records ← kv_mget (field petRecords "recordIds");
           mret (Json 200 {[ "records" := VArr (VObj <$> omap id records) ]})
     end)
    (Json 500 (error "Failed to fetch health records")).

(** [app.get('/appointments')] *)
Definition getAppointments (user : option string)
  : KV.store -> response * KV.store :=
  try_catch
    (uid ← getUser user;
     userAppointments ← kv_get_or ("user:" +:+ uid +:+ ":appointments")
                                  {[ "appointmentIds" := VArr [] ]};
     appointments ← kv_mget (field userAppointments "appointmentIds");
     mret (Json 200 {[ "appointments" := VArr (VObj <$> omap id appointments) ]}))
    (Json 500 (error "Failed to fetch appointments")).

(** [app.get('/appointments/all')] *)
Definition getAllAppointments (user : option string)
  : KV.store -> response * KV.store :=
  try_catch
    (uid ← getUser user;
     require_staff uid;;
     allAppointments ← kv_getByPrefix "appointment:";
     mret (Json 200 {[ "appointments" := VArr (VObj <$> allAppointments) ]}))
    (Json 500 (error "Failed to fetch all appointments")).

(** *** The reminder job, [send_reminders.tsx] *)

(** The filter that selects the appointments to remind of. *)
Definition upcoming_filter (now : Z) (apt : obj) : bool :=
  if strict_eq (field apt "status") (VStr "cancelled") then false
  else match new_Date (field apt "dateTime") with
       | Some aptTime =>
           let daysUntil := ceil_days (aptTime - now) in
           (daysUntil =? 7) || (daysUntil =? 3) || (daysUntil =? 0)
       | None => false
       end.

(** [app.get('/send-reminders')], as far as its answer goes: the rows of the
    table whose key starts with ['appointment:'] are the records of the
    prefix scan; the mail and text deliveries, whose failures the job
    swallows, leave no trace in the answer or in the table. *)
Definition sendReminders (now : Z) : KV.store -> response * KV.store :=
  try_catch
    (appointments ← kv_getByPrefix "appointment:";
     let upcoming := List.filter (upcoming_filter now) appointments in
     mret (Json 200 {[ "sent" := count upcoming ]}))
    (Json 500 (error "Failed to send reminders")).

(** [app.get('/health')], which asks for no session and has no [catch]. *)
Definition health (now : Z) : KV.store -> response * KV.store :=
  fun s => (Json 200 {[ "status" := VStr "ok";
                        "timestamp" := VStr (toISOString now) ]}, s).
End OtherRoutes.

(** ** The slot calendar of the booking screen *)

(** Local time as the browser sees it: [d.setHours(h, m, 0, 0)] on a valid
    date, and the label [d.toLocaleTimeString([], ...)]. *)
Class LocalClock := {
  setHours : Z -> Z -> Z -> Z;
  toLocaleTimeString : Z -> string
}.

Section Slots.
Context `{RT : Runtime} `{LC : LocalClock}.


End Slots.

(** ** The vaccination flag of the owner screen *)

Section MoreClient.
Context `{RT : Runtime}.

End MoreClient.

(** ** What the booking screen loads *)

(** The lists the [AppointmentManagement] component keeps with [useState];
    each starts empty. *)
Module Screen.



End Screen.





(** ** A reference host

    A server whose clock is UTC, whose date parser reads the two ISO forms
    the screens send back ([toISOString] output and [YYYY-MM-DD]) and whose
    [toLowerCase] covers ASCII.  The theorems below hold for every
    [Runtime]; this one is used to run the routes on concrete requests. *)

Module Host.

Definition digit (c : Ascii.ascii) : option Z :=
  let n := Z.of_nat (Ascii.nat_of_ascii c) in
  if (48 <=? n) && (n <=? 57) then Some (n - 48) else None.

Fixpoint digits (acc : Z) (s : string) : option Z :=
  match s with
  | EmptyString => Some acc
  | String c rest => d ← digit c; digits (10 * acc + d) rest
  end.

Definition number (s : string) (start len : nat) : option Z :=
  digits 0 (String.substring start len s).

(** Accepts exactly the strings [toISOString] produces for years 0 to 9999,
    and their first ten characters as a date at midnight UTC. *)
Definition parse_iso (s : string) : option Z :=
  y ← number s 0 4;
  m ← number s 5 2;
  d ← number s 8 2;
  let day := days_from_civil y m d * msPerDay in
  if String.eqb s (slice_0_10 (toISOString day)) then Some day
  else
    hh ← number s 11 2;
    mm ← number s 14 2;
    ss ← number s 17 2;
    ms ← number s 20 3;
    let t := day + hh * 3600000 + mm * 60000 + ss * 1000 + ms in
    if String.eqb s (toISOString t) then Some t else None.

Definition lower_ascii (c : Ascii.ascii) : Ascii.ascii :=
  let n := Ascii.nat_of_ascii c in
  if (65 <=? n)%nat && (n <=? 90)%nat then Ascii.ascii_of_nat (n + 32) else c.

Fixpoint lower (s : string) : string :=
  match s with
  | EmptyString => EmptyString
  | String c rest => String (lower_ascii c) (lower rest)
  end.

Definition utc_midnight (t : Z) : Z := t - t mod msPerDay.

Definition utc : Runtime :=
  {| Date_parse := parse_iso; toLowerCase := lower; startOfLocalDay := utc_midnight |}.

End Host.

(** A browser in the UTC time zone, with 24-hour labels. *)
Module Browser.

Definition set_hours (t h m : Z) : Z := Host.utc_midnight t + h * 3600000 + m * 60000.

Definition label (t : Z) : string :=
  let r := t mod msPerDay in pad 2 (r / 3600000) +:+ ":" +:+ pad 2 (r / 60000 mod 60).

Definition utc : LocalClock :=
  {| setHours := set_hours; toLocaleTimeString := label |}.



End Browser.

(** ** Vocabulary of the properties *)

Section Vocabulary.
Context `{RT : Runtime}.

(** Records found by a prefix scan. *)
Definition stored_under (prefix : string) (s : KV.store) (o : obj) : Prop :=
  ∃ k, s !! k = Some o ∧ String.prefix prefix k = true.

Definition live_appointment := stored_under "appointment:".
Definition live_block := stored_under "block:".

(** A non-cancelled appointment at time [t]. *)
Definition booked_at (apt : obj) (t : Z) : Prop :=
  field apt "status" ≠ VStr "cancelled"
  ∧ new_Date (field apt "dateTime") = Some t.

Definition within_30_minutes (t1 t2 : Z) : Prop :=
  Z.abs (t1 - t2) < 30 * 60 * 1000.

(** The calendar day of a time value, as the server and the booking screen
    both take it: the date part of the ISO (UTC) rendering. *)
Definition calendar_date (t : Z) : string := slice_0_10 (toISOString t).

Definition blocks_date (b : obj) (t : Z) : Prop :=
  field b "date" = VStr (calendar_date t).

(** A field that is absent or holds a string, as the data model types the
    identifying fields of a pet. *)
Definition textual (v : value) : Prop := v = VUndef ∨ ∃ str, v = VStr str.

Definition text_of (v : value) : string :=
  match v with
  | VStr str => str
  | _ => ""
  end.

Definition pet_typed (p : obj) : Prop :=
  textual (field p "microchipId") ∧ textual (field p "name")
  ∧ textual (field p "species") ∧ textual (field p "breed")
  ∧ textual (field p "dateOfBirth").

(** The duplicate rule in the words of the specification: the microchip
    id is present on both and equal, or name, species and breed agree up
    to case and the date of birth agrees exactly. *)
Definition same_chip (candidate p : obj) : Prop :=
  text_of (field candidate "microchipId") ≠ ""
  ∧ text_of (field p "microchipId") ≠ ""
  ∧ text_of (field p "microchipId") = text_of (field candidate "microchipId").

Definition same_ignoring_case (a b : value) : Prop :=
  toLowerCase (text_of a) = toLowerCase (text_of b).

Definition same_identity (candidate p : obj) : Prop :=
  same_ignoring_case (field p "name") (field candidate "name")
  ∧ same_ignoring_case (field p "species") (field candidate "species")
  ∧ same_ignoring_case (field p "breed") (field candidate "breed")
  ∧ text_of (field p "dateOfBirth") = text_of (field candidate "dateOfBirth").

Definition duplicates (candidate p : obj) : Prop :=
  same_chip candidate p ∨ same_identity candidate p.

(** [x] is the first record of [l] that satisfies [P]. *)
Definition first_match (P : obj -> Prop) (l : list (option obj)) (x : obj) : Prop :=
  ∃ before after, l = before ++ Some x :: after ∧ P x
                  ∧ ∀ y, Some y ∈ before -> ¬ P y.

(** The ids in an index list: of the record under [key], or of the default
    the routes substitute when there is none. *)
Definition index_list (s : KV.store) (key name : string) : value :=
  field (default {[ name := VArr [] ]} (s !! key)) name.





(** The records an index list resolves to; dangling ids are skipped, as
    the routes skip them. *)
Definition resolved (s : KV.store) (ids : list value) : list obj :=
  omap id (KV.mget s (js_toString <$> ids)).

(** The actor has a profile with role staff or admin. *)
Definition has_staff_role (s : KV.store) (uid : string) : Prop :=
  ∃ profile, s !! ("user:" +:+ uid) = Some profile
             ∧ (field profile "role" = VStr "staff"
                ∨ field profile "role" = VStr "admin").

Definition no_block_on (s : KV.store) (t : Z) : Prop :=
  ¬ ∃ b, live_block s b ∧ blocks_date b t.

Definition no_conflict_at (s : KV.store) (t : Z) : Prop :=
  ¬ ∃ apt t1, live_appointment s apt ∧ booked_at apt t1 ∧ within_30_minutes t1 t.

(** An appointment dated in the closed interval from [lo] to [hi]. *)
Definition dated_within (lo hi : Z) (apt : obj) : Prop :=
  ∃ t, new_Date (field apt "dateTime") = Some t ∧ lo ≤ t ≤ hi.

(** A pending appointment dated before [now]. *)
Definition missed (now : Z) (apt : obj) : Prop :=
  field apt "status" = VStr "pending"
  ∧ ∃ t, new_Date (field apt "dateTime") = Some t ∧ t < now.

#[export] Instance dated_within_dec lo hi apt : Decision (dated_within lo hi apt).
Proof.
  unfold dated_within. destruct (new_Date (field apt "dateTime")) as [t|].
  - destruct (decide (lo ≤ t ≤ hi)) as [Hin|Hout].
    + left. by exists t.
    + right. intros (t' & Ht & Hin). by injection Ht as <-.
  - right. by intros (t & Ht & _).
Defined.

#[export] Instance missed_dec now apt : Decision (missed now apt).
Proof.
  unfold missed.
  destruct (strict_eq (field apt "status") (VStr "pending")) eqn:Hs.
  - destruct (new_Date (field apt "dateTime")) as [t|].
    + destruct (decide (t < now)) as [Hin|Hout].
      * left. split; [|by exists t].
        destruct (field apt "status"); try discriminate Hs.
        simpl in Hs. apply String.eqb_eq in Hs. by subst.
      * right. intros (_ & t' & Ht & Hin). by injection Ht as <-.
    + right. by intros (_ & t & Ht & _).
  - right. intros (Hp & _). rewrite Hp in Hs. discriminate Hs.
Defined.

Definition ids_of (v : value) : list value :=
  match v with
  | VArr ids => ids
  | _ => []
  end.

(** The pet index of [owner] lists exactly the stored records whose
    [ownerId] is [owner]. *)
Definition owner_pets_indexed (s : KV.store) (owner : string) : Prop :=
  ∀ key, VStr key ∈ ids_of (index_list s ("user:" +:+ owner +:+ ":pets") "petIds")
         ↔ ∃ pet, s !! key = Some pet ∧ field pet "ownerId" = VStr owner.

(** A figure of the dashboard answer. *)
Definition stat (r : response) (name : string) : value :=
  match field (payload r) "stats" with
  | VObj stats => field stats name
  | _ => VUndef
  end.
End Vocabulary.

(** ** A sample clinic

    One owner with one pet and one pending appointment, one member of staff,
    and one blocked day; used to run the routes under [Host.utc]. *)

Module Sample.

Definition ana : obj :=
  {[ "id" := VStr "u-ana"; "email" := VStr "ana@example.org";
     "name" := VStr "Ana"; "role" := VStr "owner" ]}.

Definition vet : obj :=
  {[ "id" := VStr "u-vet"; "email" := VStr "vet@example.org";
     "name" := VStr "Dr. Cruz"; "role" := VStr "staff" ]}.

Definition rex : obj :=
  {[ "id" := VStr "pet:u-ana:1714000000000"; "ownerId" := VStr "u-ana";
     "name" := VStr "Rex"; "species" := VStr "Dog"; "breed" := VStr "Labrador";
     "dateOfBirth" := VStr "2020-03-01"; "microchipId" := VStr "985112";
     "nextVaccinationDate" := VStr "2024-05-10" ]}.

(** 2024-05-01T09:00:00.000Z is 1714554000000. *)
Definition checkup : obj :=
  {[ "id" := VStr "appointment:1714100000000"; "userId" := VStr "u-ana";
     "petId" := VStr "pet:u-ana:1714000000000"; "petName" := VStr "Rex";
     "dateTime" := VStr "2024-05-01T09:00:00.000Z"; "reason" := VStr "Checkup";
     "status" := VStr "pending" ]}.

Definition holiday : obj :=
  {[ "id" := VStr "block:2024-05-02"; "date" := VStr "2024-05-02";
     "notes" := VStr "Holiday"; "createdBy" := VStr "u-vet" ]}.

Definition clinic : KV.store :=
  {[ "user:u-ana" := ana;
     "user:u-vet" := vet;
     "pet:u-ana:1714000000000" := rex;
     "user:u-ana:pets" := {[ "petIds" := VArr [VStr "pet:u-ana:1714000000000"] ]};
     "appointment:1714100000000" := checkup;
     "user:u-ana:appointments" :=
       {[ "appointmentIds" := VArr [VStr "appointment:1714100000000"] ]};
     "block:2024-05-02" := holiday ]}.

(** 2024-04-30T09:00:00.000Z, a day before the checkup. *)
Definition now : Z := 1714467600000.

(** 2024-05-08T12:00:00.000Z, seven days and three hours after it. *)
Definition a_week_later : Z := 1715169600000.

Definition request (petId dateTime : string) : obj :=
  {[ "petId" := VStr petId; "petName" := VStr "Rex"; "dateTime" := VStr dateTime;
     "reason" := VStr "Vaccination"; "notes" := VStr "" ]}.



(** A free slot, for a pet id that names no record. *)
Definition request_ghost : obj := request "pet:ghost" "2024-05-03T10:00:00.000Z".

(** A free slot for Rex, with a [userId] of the sender's choosing in the
    payload. *)
Definition request_as_vet : obj :=
  <[ "userId" := VStr "u-vet" ]>
    (request "pet:u-ana:1714000000000" "2024-05-03T10:00:00.000Z").

(** Rex again, typed in another case and without his chip. *)
Definition twin : obj :=
  {[ "name" := VStr "REX"; "species" := VStr "dog"; "breed" := VStr "LABRADOR";
     "dateOfBirth" := VStr "2020-03-01"; "microchipId" := VStr "" ]}.

(** A new pet whose payload names another user as its owner. *)
Definition stray : obj :=
  {[ "name" := VStr "Milo"; "species" := VStr "Cat"; "breed" := VStr "Siamese";
     "dateOfBirth" := VStr "2022-07-15"; "ownerId" := VStr "u-bob" ]}.

(** Moves an appointment onto the blocked day. *)
Definition move_to_holiday : obj := {[ "dateTime" := VStr "2024-05-02T10:00:00.000Z" ]}.



End Sample.

(** ** Vocabulary of the further properties *)

Section MoreVocabulary.
Context `{RT : Runtime}.

(** No two stored appointments that are not cancelled lie within 30 minutes
    of each other. *)
Definition buffer_respected (s : KV.store) : Prop :=
  ∀ k1 k2 a1 a2 t1 t2,
    k1 ≠ k2 ->
    s !! k1 = Some a1 -> String.prefix "appointment:" k1 = true ->
    s !! k2 = Some a2 -> String.prefix "appointment:" k2 = true ->
    booked_at a1 t1 -> booked_at a2 t2 ->
    ¬ within_30_minutes t1 t2.

(** The record [createAppointment] writes for a payload. *)
Definition new_appointment (appointmentData : obj) (owner : value) (now : Z) : obj :=
  <[ "updatedAt" := VStr (toISOString now) ]>
    (<[ "createdAt" := VStr (toISOString now) ]>
       (<[ "status" := VStr "pending" ]>
          (appointmentData
             ∪ {[ "id" := VStr ("appointment:" +:+ pretty now); "userId" := owner ]}))).

(** The record [createPet] writes for a payload. *)
Definition new_pet (petData : obj) (uid : string) (now : Z) : obj :=
  <[ "updatedAt" := VStr (toISOString now) ]>
    (<[ "createdAt" := VStr (toISOString now) ]>
       (petData ∪ {[ "id" := VStr ("pet:" +:+ uid +:+ ":" +:+ pretty now);
                     "ownerId" := VStr uid ]})).



(** The actor may act on a record owned by [owner]: they are that owner, or
    staff. *)
Definition may_act (s : KV.store) (uid : string) (owner : value) : Prop :=
  owner = VStr uid ∨ has_staff_role s uid.

(** The actor has a profile, and it is not one of staff or admin. *)
Definition plain_user (s : KV.store) (uid : string) : Prop :=
  ∃ profile, s !! ("user:" +:+ uid) = Some profile
             ∧ field profile "role" ≠ VStr "staff"
             ∧ field profile "role" ≠ VStr "admin".
End MoreVocabulary.

Section BlockVocabulary.
Context `{RT : Runtime}.

(** Every block is stored under the key its date gives, as [createBlock]
    stores it. *)
Definition blocks_keyed (s : KV.store) : Prop :=
  ∀ k b, s !! k = Some b -> String.prefix "block:" k = true ->
         k = "block:" +:+ js_toString (field b "date").

(** The record [createBlock] writes. *)
Definition new_block (payload : obj) (uid : string) (now : Z) : obj :=
  <[ "id" := VStr ("block:" +:+ js_toString (field payload "date")) ]>
  (<[ "date" := field payload "date" ]>
  (<[ "notes" := js_or (field payload "notes") (VStr "") ]>
  (<[ "createdAt" := VStr (toISOString now) ]>
  {[ "createdBy" := VStr uid ]}))).

End BlockVocabulary.

Section SlotVocabulary.
Context `{RT : Runtime} `{LC : LocalClock}.



End SlotVocabulary.

(** ** Further sample requests *)

Module Cases.

(** A second owner, who has no pet and no appointment. *)
Definition bob : obj :=
  {[ "id" := VStr "u-bob"; "email" := VStr "bob@example.org";
     "name" := VStr "Bob"; "role" := VStr "owner" ]}.

Definition clinic_with_bob : KV.store := <[ "user:u-bob" := bob ]> Sample.clinic.

(** A cat that is not in the clinic yet, and the same cat typed in another
    case. *)
Definition milo : obj :=
  {[ "name" := VStr "Milo"; "species" := VStr "Cat"; "breed" := VStr "Siamese";
     "dateOfBirth" := VStr "2022-07-15" ]}.

Definition milo_again : obj :=
  {[ "name" := VStr "MILO"; "species" := VStr "cat"; "breed" := VStr "siamese";
     "dateOfBirth" := VStr "2022-07-15" ]}.

Definition cancel : obj := {[ "status" := VStr "cancelled" ]}.

(** The time of the checkup, 2024-05-01T09:00:00.000Z. *)
Definition request_0900 : obj :=
  Sample.request "pet:u-ana:1714000000000" "2024-05-01T09:00:00.000Z".

(** Twenty minutes after the free slot of [Sample.request_ghost]. *)
Definition request_1020 : obj :=
  Sample.request "pet:u-ana:1714000000000" "2024-05-03T10:20:00.000Z".

Definition weight : obj := {[ "weight" := VStr "31 kg" ]}.

(** A block for 2024-05-06, and a booking on that day. *)
Definition training : obj := {[ "date" := VStr "2024-05-06"; "notes" := VStr "Training" ]}.



End Cases.

(** ** Properties *)

(** *** Generic facts *)

(** Settles a closed goal by evaluation. *)
Ltac run :=
  lazymatch goal with
  | |- @eq ?T _ ?y => vm_cast_no_check (@eq_refl T y)
  | |- _ => vm_compute; done
  end.

(** Runs the plumbing of a route: binds, early replies, store accesses. *)
Ltac route_unfold :=
  cbv beta iota zeta delta
    [try_catch mbind route_bind mret route_ret reply raise or_raise
     kv_get kv_set kv_del kv_getByPrefix kv_get_or kv_mget
     getUser req_json iso_date push find_duplicate not_owner_nor_staff
     without resolve_owner].

Lemma strict_eq_str (v : value) (s : string) :
  strict_eq v (VStr s) = true ↔ v = VStr s.
Proof.
  destruct v; simpl; try (split; [discriminate | congruence]).
  rewrite String.eqb_eq. split; congruence.
Qed.

Lemma strict_eq_str_false (v : value) (s : string) :
  strict_eq v (VStr s) = false ↔ v ≠ VStr s.
Proof.
  rewrite <- strict_eq_str. destruct (strict_eq v (VStr s)); split; congruence.
Qed.

Lemma elem_of_getByPrefix (s : KV.store) (prefix : string) (o : obj) :
  o ∈ KV.getByPrefix s prefix ↔ stored_under prefix s o.
Proof.
  unfold KV.getByPrefix, stored_under. rewrite list_elem_of_omap. split.
  - intros [[k v] [Hin Hk]]. simpl in Hk.
    destruct (String.prefix prefix k) eqn:Hp; [|discriminate].
    injection Hk as ->. apply elem_of_map_to_list in Hin. eauto.
  - intros (k & Hk & Hp). exists (k, o). split.
    + by apply elem_of_map_to_list.
    + simpl. by rewrite Hp.
Qed.

Lemma existsb_elem_of {A} (f : A -> bool) (l : list A) :
  existsb f l = true ↔ ∃ x, x ∈ l ∧ f x = true.
Proof.
  rewrite existsb_exists. split; intros (x & Hx & Hf); exists x; split; auto;
    by apply list_elem_of_In.
Qed.

Section Scheduling.
Context `{RT : Runtime}.

Lemma in_buffer_spec (apt : obj) (t1 t2 : Z) :
  booked_at apt t1 ->
  in_buffer (Some t2) apt = true ↔ within_30_minutes t1 t2.
Proof.
  intros [Hs Ht]. unfold in_buffer, within_30_minutes.
  apply strict_eq_str_false in Hs. rewrite Hs, Ht.
  apply Z.ltb_lt.
Qed.

Lemma in_buffer_booked (apt : obj) (rt : option Z) :
  in_buffer rt apt = true ->
  ∃ t1 t2, rt = Some t2 ∧ booked_at apt t1 ∧ within_30_minutes t1 t2.
Proof.
  unfold in_buffer, booked_at, within_30_minutes.
  destruct (strict_eq _ _) eqn:Hs; [discriminate|].
  apply strict_eq_str_false in Hs.
  destruct (new_Date _) as [t1|]; [|discriminate].
  destruct rt as [t2|]; [|discriminate].
  intros Hlt%Z.ltb_lt. eauto 10.
Qed.

(** Whether the scan of [createAppointment] finds a conflict, resp. a
    block, in terms of the records in the store. *)
Lemma conflict_spec (s : KV.store) (t2 : Z) :
  existsb (in_buffer (Some t2)) (KV.getByPrefix s "appointment:") = true
  ↔ ∃ apt t1, live_appointment s apt ∧ booked_at apt t1 ∧ within_30_minutes t1 t2.
Proof.
  rewrite existsb_elem_of. split.
  - intros (apt & Hin%elem_of_getByPrefix & Hb).
    apply in_buffer_booked in Hb as (t1 & t2' & [= <-] & Hb & Hw). eauto.
  - intros (apt & t1 & Hl%elem_of_getByPrefix & Hb & Hw).
    exists apt. split; [done|]. by eapply in_buffer_spec.
Qed.

Lemma blocked_spec (bs : list obj) (t : Z) :
  existsb (on_date (slice_0_10 (toISOString t))) bs = true
  ↔ ∃ b, b ∈ bs ∧ blocks_date b t.
Proof.
  rewrite existsb_elem_of. unfold on_date, blocks_date, calendar_date.
  split; intros (b & Hin & Hd); exists b; split; auto; by apply strict_eq_str.
Qed.

(** The outcome of [createAppointment] up to its two rejections. *)
Lemma createAppointment_blocked s uid body now t2 :
  new_Date (field body "dateTime") = Some t2 ->
  existsb (on_date (slice_0_10 (toISOString t2))) (KV.getByPrefix s "block:") = true ->
  createAppointment (Some uid) (Some body) now s
  = (Json 409 (error "Time slot unavailable - clinic blocked on this date"), s).
Proof.
  intros Ht Hb. unfold createAppointment. route_unfold.
  rewrite Ht. cbv beta iota. by rewrite Hb.
Qed.

Lemma createAppointment_conflict s uid body now t2 :
  new_Date (field body "dateTime") = Some t2 ->
  existsb (on_date (slice_0_10 (toISOString t2))) (KV.getByPrefix s "block:") = false ->
  existsb (in_buffer (Some t2)) (KV.getByPrefix s "appointment:") = true ->
  createAppointment (Some uid) (Some body) now s
  = (Json 409 (error "Time slot unavailable - conflicts with existing appointment"), s).
Proof.
  intros Ht Hb Hc. unfold createAppointment. route_unfold.
  rewrite Ht. cbv beta iota. by rewrite Hb, Hc.
Qed.

Lemma createAppointment_free s uid body now t2 :
  new_Date (field body "dateTime") = Some t2 ->
  existsb (on_date (slice_0_10 (toISOString t2))) (KV.getByPrefix s "block:") = false ->
  existsb (in_buffer (Some t2)) (KV.getByPrefix s "appointment:") = false ->
  status (createAppointment (Some uid) (Some body) now s).1 ≠ 409.
Proof.
  intros Ht Hb Hc. unfold createAppointment. route_unfold.
  rewrite Ht. cbv beta iota. rewrite Hb, Hc.
  repeat (case_match; simplify_eq; simpl; try done).
Qed.

End Scheduling.




(** *** Cancelled appointments *)






Section Cancelled.
Context `{RT : Runtime}.


End Cancelled.


(** *** Duplicate detection *)

Section Duplicates.
Context `{RT : Runtime}.

Lemma lower_or_empty_textual (v : value) :
  textual v -> lower_or_empty v = Some (toLowerCase (text_of v)).
Proof.
  intros [-> | [str ->]]; [done|].
  unfold lower_or_empty, js_or. simpl.
  destruct (String.eqb_spec str "") as [->|]; done.
Qed.

Lemma truthy_textual (v : value) :
  textual v -> truthy v = true ↔ text_of v ≠ "".
Proof.
  intros [-> | [str ->]]; simpl; [split; done|].
  destruct (String.eqb_spec str ""); simpl; split; congruence.
Qed.

Lemma strict_eq_textual (a b : value) :
  textual a -> textual b -> text_of a ≠ "" ->
  strict_eq a b = true ↔ text_of a = text_of b.
Proof.
  intros [-> | [x ->]] [-> | [y ->]]; simpl; try done.
  intros _. apply String.eqb_eq.
Qed.

Lemma strict_eq_or_empty (a b : value) :
  textual a -> textual b ->
  strict_eq (js_or a (VStr "")) (js_or b (VStr "")) = true ↔ text_of a = text_of b.
Proof.
  assert (Hor : ∀ v, textual v -> js_or v (VStr "") = VStr (text_of v)).
  { intros v [-> | [x ->]]; [done|]. unfold js_or. simpl.
    destruct (String.eqb_spec x "") as [->|]; done. }
  intros Ha Hb. rewrite !Hor by done. simpl. apply String.eqb_eq.
Qed.

(** On typed records the predicate of the route never throws and decides
    the rule of the specification. *)
Lemma is_duplicate_spec (candidate p : obj) :
  pet_typed candidate -> pet_typed p ->
  ∃ b : bool, is_duplicate candidate (Some p) = Some b
              ∧ (b = true ↔ duplicates candidate p).
Proof.
  intros (Hc1 & Hc2 & Hc3 & Hc4 & Hc5) (Hp1 & Hp2 & Hp3 & Hp4 & Hp5).
  unfold is_duplicate, duplicates, same_chip, same_identity, same_ignoring_case.
  pose proof (truthy_textual _ Hc1) as Htc.
  pose proof (truthy_textual _ Hp1) as Htp.
  destruct (truthy (field candidate "microchipId")) eqn:Ec;
    destruct (truthy (field p "microchipId")) eqn:Ep; simpl.
  1: pose proof (strict_eq_textual _ _ Hp1 Hc1 (proj1 Htp eq_refl)) as Hse;
     destruct (strict_eq (field p "microchipId") (field candidate "microchipId")) eqn:Es.
  1: { exists true. split; [done|]. split; [|done]. intros _. left.
       repeat split; [by apply Htc | by apply Htp | by apply Hse]. }
  all: rewrite !lower_or_empty_textual by done; simpl;
    eexists; split; [reflexivity|];
    pose proof (strict_eq_or_empty _ _ Hp5 Hc5) as Hdob;
    rewrite !andb_true_iff, !String.eqb_eq, Hdob.
  all: split; [intros (((? & ?) & ?) & ?); right; done|].
  all: intros [(Hx & Hy & Hz) | (? & ? & ? & ?)]; [|done].
  - apply Hse in Hz. congruence.
  - apply Htp in Hy. congruence.
  - apply Htc in Hx. congruence.
  - apply Htc in Hx. congruence.
Qed.

Lemma find_first_duplicate (candidate : obj) (l : list (option obj)) :
  pet_typed candidate ->
  (∀ p, Some p ∈ l -> pet_typed p) ->
  (∃ dup, find_first (is_duplicate candidate) l = Some (Some (Some dup))
          ∧ first_match (duplicates candidate) l dup)
  ∨ (find_first (is_duplicate candidate) l = Some None
     ∧ ∀ p, Some p ∈ l -> ¬ duplicates candidate p).
Proof.
  intros Hc. induction l as [|x l IH]; intros Hl.
  - right. split; [done|]. intros p Hp. by apply elem_of_nil in Hp.
  - destruct IH as [(dup & Hf & before & after & -> & HP & Hbefore) | [Hf Hnone]].
    { intros p Hp. apply Hl. by right. }
    all: destruct x as [p|]; cbn [find_first].
    all: try (destruct (is_duplicate_spec candidate p Hc) as (b & -> & Hb);
              [apply Hl; by left|]; destruct b).
    all: try change (is_duplicate candidate None) with (Some false).
    all: cbv iota; try rewrite Hf.
    + left. exists p. split; [done|]. exists [], (before ++ Some dup :: after).
      split; [done|]. split; [by apply Hb|]. intros y Hy. by apply elem_of_nil in Hy.
    + left. exists dup. split; [done|]. exists (Some p :: before), after.
      split; [done|]. split; [done|]. intros y [[= ->] | Hy]%elem_of_cons; [|by apply Hbefore].
      intros Hd. apply Hb in Hd. done.
    + left. exists dup. split; [done|]. exists (None :: before), after.
      split; [done|]. split; [done|]. intros y [[=] | Hy]%elem_of_cons. by apply Hbefore.
    + left. exists p. split; [done|]. exists [], l.
      split; [done|]. split; [by apply Hb|]. intros y Hy. by apply elem_of_nil in Hy.
    + right. split; [done|]. intros y [[= ->] | Hy]%elem_of_cons; [|by apply Hnone].
      intros Hd. apply Hb in Hd. done.
    + right. split; [done|]. intros y [[=] | Hy]%elem_of_cons. by apply Hnone.
Qed.

Lemma first_match_unique (P : obj -> Prop) (l : list (option obj)) (x y : obj) :
  first_match P l x -> first_match P l y -> x = y.
Proof.
  intros (b1 & a1 & -> & HPx & Hb1) (b2 & a2 & Heq & HPy & Hb2).
  revert b2 Heq Hb2. induction b1 as [|z b1 IH]; intros [|z' b2] Heq Hb2.
  - by injection Heq.
  - injection Heq as <- _. exfalso. apply (Hb2 x); [by left | done].
  - injection Heq as -> _. exfalso. apply (Hb1 y); [by left | done].
  - injection Heq as <- Heq. apply (IH (λ w Hw, Hb1 w (list_elem_of_further _ _ _ Hw)) b2 Heq).
    intros w Hw. apply Hb2. by right.
Qed.

Lemma first_match_elem (P : obj -> Prop) (l : list (option obj)) (x : obj) :
  first_match P l x -> Some x ∈ l ∧ P x.
Proof.
  intros (before & after & -> & HP & _). split; [|done].
  apply elem_of_app. right. by left.
Qed.

Lemma createPet_duplicate s uid petData now ids dup :
  index_list s ("user:" +:+ uid +:+ ":pets") "petIds" = VArr ids ->
  find_first (is_duplicate petData) (KV.mget s (js_toString <$> ids))
  = Some (Some (Some dup)) ->
  createPet (Some uid) (Some petData) now s
  = (Json 409 (<[ "pet" := VObj dup ]> (error "Duplicate pet exists")), s).
Proof.
  unfold index_list. intros Hidx Hf. unfold createPet. route_unfold.
  unfold KV.get. rewrite Hidx. cbv beta iota.
  change (map js_toString ids) with (js_toString <$> ids). by rewrite Hf.
Qed.

Lemma createPet_fresh s uid petData now ids :
  index_list s ("user:" +:+ uid +:+ ":pets") "petIds" = VArr ids ->
  find_first (is_duplicate petData) (KV.mget s (js_toString <$> ids)) = Some None ->
  status (createPet (Some uid) (Some petData) now s).1 ≠ 409.
Proof.
  unfold index_list. intros Hidx Hf. unfold createPet. route_unfold.
  unfold KV.get. rewrite Hidx. cbv beta iota.
  change (map js_toString ids) with (js_toString <$> ids). rewrite Hf.
  cbv beta iota delta [mjoin option_join].
  repeat (case_match; simplify_eq; simpl; try done).
Qed.
End Duplicates.

(** C5. With the owner's pet index [ids] resolved to [existing], and the
    identifying fields of the candidate and of the existing pets typed as in
    the data model, [createPet] answers 409 exactly when an existing pet of
    the owner duplicates the candidate (same microchip id present on both, or
    same name, species and breed up to case and same date of birth), and the
    pet attached to the answer is the first such record. *)
Theorem duplicate_pet_rejected `{RT : Runtime} (s : KV.store) (uid : string)
    (petData : obj) (now : Z) (ids : list value) :
  index_list s ("user:" +:+ uid +:+ ":pets") "petIds" = VArr ids ->
  let existing := KV.mget s (js_toString <$> ids) in
  pet_typed petData ->
  (∀ p, Some p ∈ existing -> pet_typed p) ->
  let r := createPet (Some uid) (Some petData) now s in
  (status r.1 = 409 ↔ ∃ p, Some p ∈ existing ∧ duplicates petData p)
  ∧ (∀ dup, r = (Json 409 (<[ "pet" := VObj dup ]> (error "Duplicate pet exists")), s)
            ↔ first_match (duplicates petData) existing dup).
Proof.
  intros Hidx existing Htc Htl r.
  destruct (find_first_duplicate petData existing Htc Htl)
    as [(d & Hf & Hm) | [Hf Hnone]].
  - assert (Hr : r = (Json 409 (<[ "pet" := VObj d ]> (error "Duplicate pet exists")), s))
      by by eapply createPet_duplicate.
    rewrite Hr. split.
    + split; [|done]. intros _. exists d. by eapply first_match_elem.
    + intros dup. split.
      * intros Heq. apply (f_equal (λ x, payload x.1 !! "pet")) in Heq.
        cbn [fst payload] in Heq. rewrite !lookup_insert_eq in Heq.
        by injection Heq as ->.
      * intros Hm'. by rewrite (first_match_unique _ _ _ _ Hm Hm').
  - assert (Hr : status r.1 ≠ 409) by by eapply createPet_fresh.
    split.
    + split; [done|]. intros (p & Hp & Hd). by apply Hnone in Hd.
    + intros dup. split.
      * intros Heq. by rewrite Heq in Hr.
      * intros [Hp Hd]%first_match_elem. by apply Hnone in Hd.
Qed.

(** *** Reminders *)


Section Reminders.
Context `{RT : Runtime}.





End Reminders.


(** *** Unknown pets *)

Lemma is_staff_role (s : KV.store) (uid : string) :
  is_staff (s !! ("user:" +:+ uid)) = true ↔ has_staff_role s uid.
Proof.
  unfold is_staff, has_staff_role. destruct (s !! _) as [profile|].
  - rewrite orb_true_iff, !strict_eq_str. split; [by eauto|].
    by intros (? & [= <-] & ?).
  - split; [done|]. by intros (? & ? & _).
Qed.

Section FreeSlot.
Context `{RT : Runtime}.

Lemma no_block_on_scan (s : KV.store) (t : Z) :
  no_block_on s t ->
  existsb (on_date (slice_0_10 (toISOString t))) (KV.getByPrefix s "block:") = false.
Proof.
  intros Hb. destruct (existsb _ _) eqn:E; [|done]. destruct Hb.
  apply blocked_spec in E as (b & Hin%elem_of_getByPrefix & Hd). eauto.
Qed.

Lemma no_conflict_at_scan (s : KV.store) (t : Z) :
  no_conflict_at s t ->
  existsb (in_buffer (Some t)) (KV.getByPrefix s "appointment:") = false.
Proof.
  intros Hc. destruct (existsb _ _) eqn:E; [|done]. destruct Hc.
  by apply conflict_spec.
Qed.
End FreeSlot.


(** *** Dashboard *)


Section Dashboard.
Context `{RT : Runtime}.


End Dashboard.


(** *** Updates *)

(** C10, as the route has it. [updateAppointment] looks at no other
    appointment and no block: an update of an existing appointment by its
    owner or by staff succeeds and is stored whatever the rest of the store
    holds.  Its failures are 401, 404 and 403 and the 500 of its catch
    block; it never answers 409. *)
Theorem update_unchecked (s : KV.store) (user : option string)
    (appointmentId : string) (body : option obj) (now : Z) :
  let r := updateAppointment user appointmentId body now s in
  (status r.1 ∈ [200; 401; 404; 403; 500] ∧ status r.1 ≠ 409)
  ∧ (user = None -> status r.1 = 401)
  ∧ ∀ uid updates appointment,
      user = Some uid -> body = Some updates ->
      s !! appointmentId = Some appointment ->
      field appointment "userId" = VStr uid ∨ has_staff_role s uid ->
      let updated := <[ "updatedAt" := VStr (toISOString now) ]> (updates ∪ appointment) in
      r = (Json 200 {[ "appointment" := VObj updated ]}, <[ appointmentId := updated ]> s).
Proof.
  intros r. split; [|split].
  - assert (status r.1 ∈ [200; 401; 404; 403; 500]) as Hin.
    { subst r. unfold updateAppointment. route_unfold.
      repeat (case_match; simplify_eq; simpl; try set_solver). }
    split; [done|]. intros E. rewrite E in Hin.
    repeat (apply elem_of_cons in Hin as [Hin|Hin]; [done|]).
    by apply elem_of_nil in Hin.
  - intros ->. done.
  - intros uid updates appointment -> -> Hfound Hauth updated. subst r updated.
    unfold updateAppointment. route_unfold. unfold KV.get. rewrite Hfound.
    destruct Hauth as [Hown | Hstaff].
    + rewrite Hown. simpl. by rewrite String.eqb_refl.
    + destruct (strict_eq (field appointment "userId") (VStr uid)); [done|].
      pose proof Hstaff as (profile & Hp & Hrole). rewrite Hp.
      unfold not_staff.
      destruct Hrole as [-> | ->]; simpl; done.
Qed.

(** ** The routes on the sample clinic *)




Lemma duplicate_pet_rejected_witness :
  status (createPet (RT := Host.utc) (Some "u-ana") (Some Sample.twin)
            Sample.now Sample.clinic).1 = 409.
Proof.
  pose proof (duplicate_pet_rejected (RT := Host.utc) Sample.clinic "u-ana"
                Sample.twin Sample.now [VStr "pet:u-ana:1714000000000"]) as Hthm.
  cbv zeta in Hthm.
  assert (Hex : KV.mget Sample.clinic (js_toString <$> [VStr "pet:u-ana:1714000000000"])
                = [Some Sample.rex]) by run.
  rewrite Hex in Hthm.
  destruct Hthm as [Hiff _].
  - run.
  - repeat split; vm_compute; right; by eexists.
  - intros p [= ->]%list_elem_of_singleton.
    repeat split; vm_compute; right; by eexists.
  - apply Hiff. exists Sample.rex. split; [by apply list_elem_of_singleton|].
    right. repeat split; run.
Defined.




Lemma update_unchecked_witness :
  status (updateAppointment (Some "u-ana") "appointment:1714100000000"
            (Some Sample.move_to_holiday) Sample.now Sample.clinic).1 = 200.
Proof.
  pose proof (update_unchecked Sample.clinic (Some "u-ana")
                "appointment:1714100000000" (Some Sample.move_to_holiday) Sample.now)
    as Hthm.
  cbv zeta in Hthm. destruct Hthm as (_ & _ & Hok).
  rewrite (Hok "u-ana" Sample.move_to_holiday Sample.checkup eq_refl eq_refl);
    [done | run | left; run].
Defined.

(** *** Where the routes depart from the specification *)




(** The total-pets figure counts every record a ['pet:'] prefix scan returns,
    and the health-record index of a pet is stored under such a key. *)
Lemma total_pets_counts_record_index :
  let s := (createHealthRecord (Some "u-vet")
              (Some {[ "petId" := VStr "pet:u-ana:1714000000000";
                       "recordType" := VStr "checkup"; "title" := VStr "Annual" ]})
              Sample.now Sample.clinic).2 in
  let r := getDashboardStats (RT := Host.utc) (Some "u-vet") Sample.now s in
  KV.getByPrefix Sample.clinic "pet:" = [Sample.rex]
  ∧ is_Some (s !! "pet:u-ana:1714000000000:records")
  ∧ stat r.1 "totalPets" = VNum 2.
Proof.
  cbv zeta. split; [run|]. split; [|run].
  match goal with |- is_Some ?l =>
    assert (bool_decide (is_Some l) = true) as Hf by run
  end.
  by apply bool_decide_eq_true in Hf.
Qed.

(** C10 as stated fails on a payload that is not JSON: the answer is the 500
    of the catch block. *)
Lemma update_with_bad_payload :
  status (updateAppointment (Some "u-ana") "appointment:1714100000000" None
            Sample.now Sample.clinic).1 = 500.
Proof. run. Qed.

(** The same 500 meets an actor who has no profile and does not own the
    appointment. *)
Lemma update_without_profile :
  Sample.clinic !! "user:u-zoe" = None
  ∧ status (updateAppointment (Some "u-zoe") "appointment:1714100000000"
              (Some {[ "status" := VStr "cancelled" ]}) Sample.now Sample.clinic).1
    = 500.
Proof. split; run. Qed.

(** C2 at a failing request: from the empty store, where every index is
    trivially exact, one [createPet] whose payload carries an [ownerId]
    stores the pet under that owner but lists it under the sender. *)
Lemma pet_index_broken_by_payload_owner :
  let r := createPet (RT := Host.utc) (Some "u-ana") (Some Sample.stray) Sample.now ∅ in
  (∀ owner, owner_pets_indexed ∅ owner)
  ∧ status r.1 = 200
  ∧ (∃ pet, r.2 !! "pet:u-ana:1714467600000" = Some pet
            ∧ field pet "ownerId" = VStr "u-bob")
  ∧ index_list r.2 "user:u-ana:pets" "petIds" = VArr [VStr "pet:u-ana:1714467600000"]
  ∧ index_list r.2 "user:u-bob:pets" "petIds" = VArr []
  ∧ ¬ owner_pets_indexed r.2 "u-ana"
  ∧ ¬ owner_pets_indexed r.2 "u-bob".
Proof.
  cbv zeta.
  assert (Hpet : ∃ pet, (createPet (RT := Host.utc) (Some "u-ana") (Some Sample.stray)
                           Sample.now ∅).2 !! "pet:u-ana:1714467600000" = Some pet
                        ∧ field pet "ownerId" = VStr "u-bob").
  { match goal with |- ∃ pet, ?l = Some pet ∧ _ =>
      assert ((λ o, field o "ownerId") <$> l = Some (VStr "u-bob")) as Hf by run;
      destruct l as [pet|]; [|discriminate Hf]
    end.
    exists pet. split; [done|]. by injection Hf. }
  split; [|split; [run|]; split; [done|]; split; [run|];
           split; [run|]; split].
  - intros owner key. unfold index_list. rewrite !lookup_empty. split.
    + unfold field. cbn [default from_option id].
      rewrite lookup_singleton_eq. by intros ?%elem_of_nil.
    + by intros (? & ? & _).
  - intros Hidx.
    destruct (proj1 (Hidx "pet:u-ana:1714467600000")) as (pet & Hp & Ho).
    + assert (index_list (createPet (RT := Host.utc) (Some "u-ana") (Some Sample.stray)
                            Sample.now ∅).2 "user:u-ana:pets" "petIds"
              = VArr [VStr "pet:u-ana:1714467600000"]) as Hl by run.
      change ("user:" +:+ "u-ana" +:+ ":pets") with "user:u-ana:pets".
      rewrite Hl. by apply list_elem_of_singleton.
    + destruct Hpet as (pet' & Hp' & Ho'). rewrite Hp in Hp'. injection Hp' as ->.
      rewrite Ho in Ho'. discriminate Ho'.
  - intros Hidx.
    assert (VStr "pet:u-ana:1714467600000"
            ∈ ids_of (index_list (createPet (RT := Host.utc) (Some "u-ana")
                                    (Some Sample.stray) Sample.now ∅).2
                                 ("user:" +:+ "u-bob" +:+ ":pets") "petIds")) as Hin.
    { apply Hidx. exact Hpet. }
    vm_compute in Hin. by apply elem_of_nil in Hin.
Qed.

(** C3 at a failing request: staff book a free slot for Rex, Ana's pet, and
    the payload carries a [userId]. The appointment stored has that
    [userId], here the staff member's own, while its id goes to Ana's index
    list. *)
Lemma staff_booking_owner_overridden :
  let r := createAppointment (RT := Host.utc) (Some "u-vet")
             (Some Sample.request_as_vet) Sample.now Sample.clinic in
  has_staff_role Sample.clinic "u-vet"
  ∧ field Sample.rex "ownerId" = VStr "u-ana"
  ∧ status r.1 = 200
  ∧ (∃ apt, r.2 !! "appointment:1714467600000" = Some apt
            ∧ field apt "petId" = VStr "pet:u-ana:1714000000000"
            ∧ field apt "userId" = VStr "u-vet")
  ∧ index_list r.2 "user:u-ana:appointments" "appointmentIds"
    = VArr [VStr "appointment:1714100000000"; VStr "appointment:1714467600000"]
  ∧ index_list r.2 "user:u-vet:appointments" "appointmentIds" = VArr [].
Proof.
  cbv zeta. split.
  { exists Sample.vet. split; [run | left; run]. }
  split; [run|]. split; [run|].
  split; [|split; run].
  match goal with |- ∃ apt, ?l = Some apt ∧ _ =>
    assert ((λ o, (field o "petId", field o "userId")) <$> l
            = Some (VStr "pet:u-ana:1714000000000", VStr "u-vet")) as Hf by run;
    destruct l as [apt|]; [|discriminate Hf]
  end.
  exists apt. split; [done|]. injection Hf as Hf1 Hf2. done.
Qed.

(** Without a [userId] in the payload the owner is resolved as the route's
    comment says: staff booking for a pet book for its owner, anyone else
    books for themselves, and the new id joins that owner's index list. *)
Lemma booking_owner_without_override `{RT : Runtime} (s : KV.store)
    (uid owner : string) (body : obj) (now t : Z) (ids : list value) :
  body !! "userId" = None ->
  new_Date (field body "dateTime") = Some t ->
  no_block_on s t ->
  no_conflict_at s t ->
  (has_staff_role s uid ∧ truthy (field body "petId") = true
   ∧ ∃ pet, s !! js_toString (field body "petId") = Some pet
            ∧ field pet "ownerId" = VStr owner ∧ owner ≠ "")
  ∨ (¬ has_staff_role s uid ∧ owner = uid) ->
  index_list s ("user:" +:+ owner +:+ ":appointments") "appointmentIds" = VArr ids ->
  let appointmentId := "appointment:" +:+ pretty now in
  let r := createAppointment (Some uid) (Some body) now s in
  status r.1 = 200
  ∧ (∃ apt, r.2 !! appointmentId = Some apt ∧ field apt "userId" = VStr owner)
  ∧ index_list r.2 ("user:" +:+ owner +:+ ":appointments") "appointmentIds"
    = VArr (ids ++ [VStr appointmentId]).
Proof.
  intros Hbody Ht Hb'%no_block_on_scan Hc'%no_conflict_at_scan Hwho Hidx appointmentId r.
  assert (resolve_owner uid body s = (Next (VStr owner), s)) as Hres.
  { unfold resolve_owner. route_unfold. unfold KV.get.
    destruct Hwho as [(Hstaff%is_staff_role & Hpet & pet & Hfound & Ho & Hne) | [Hno ->]].
    - rewrite Hstaff, Hpet. cbn [andb]. cbv beta iota. rewrite Hfound, Ho. simpl.
      by destruct (String.eqb_spec owner "").
    - destruct (is_staff (s !! ("user:" +:+ uid))) eqn:E; [|done].
      by apply is_staff_role in E. }
  assert (Hkey : "user:" +:+ owner +:+ ":appointments" ≠ appointmentId) by done.
  unfold index_list in Hidx.
  subst r. unfold createAppointment.
  cbv beta iota zeta delta
    [try_catch mbind route_bind mret route_ret reply raise kv_get kv_set
     kv_getByPrefix kv_get_or getUser req_json iso_date push].
  rewrite Ht. cbv beta iota. rewrite Hb', Hc', Hres.
  cbv beta iota. unfold KV.get, KV.set. fold appointmentId.
  change (js_toString (VStr owner)) with owner.
  rewrite (lookup_insert_ne s) by done. rewrite Hidx.
  cbn [fst snd status]. split; [done|]. split.
  - eexists. rewrite lookup_insert_ne by done. rewrite lookup_insert_eq.
    split; [done|]. unfold field. rewrite !lookup_insert_ne by done.
    rewrite lookup_union_r by done. rewrite lookup_insert_ne by done.
    by rewrite lookup_singleton_eq.
  - unfold index_list, field. rewrite (lookup_insert_eq _ ("user:" +:+ owner +:+ ":appointments")).
    cbn [default from_option id]. by rewrite lookup_insert_eq.
Qed.

(** ** Further properties of the routes *)

(** Membership of a status code in a list of codes. *)
Ltac code_in := repeat first [apply list_elem_of_here | apply list_elem_of_further].
Ltac code_out H :=
  repeat (apply elem_of_cons in H as [H|H]; [done|]); by apply elem_of_nil in H.

(** *** Bookings *)

Lemma prefix_app (p rest : string) : String.prefix p (p +:+ rest) = true.
Proof.
  induction p as [|a p IH]; simpl; [by destruct rest|].
  by destruct (Ascii.ascii_dec a a).
Qed.

Section Booking.
Context `{RT : Runtime}.

Lemma resolve_owner_frame (uid : string) (appointmentData : obj) (s : KV.store) :
  (resolve_owner uid appointmentData s).2 = s.
Proof.
  unfold resolve_owner. route_unfold.
  repeat (case_match; simplify_eq; simpl; try done).
Qed.

(** Every way [createAppointment] can end. *)
Lemma createAppointment_cases (user : option string) (body : option obj) (now : Z)
    (s : KV.store) :
  let r := createAppointment user body now s in
  (r.2 = s ∧ status r.1 ∈ [401; 500; 409; 404])
  ∨ ∃ uid appointmentData t owner,
      user = Some uid ∧ body = Some appointmentData
      ∧ new_Date (field appointmentData "dateTime") = Some t
      ∧ existsb (on_date (slice_0_10 (toISOString t))) (KV.getByPrefix s "block:") = false
      ∧ existsb (in_buffer (Some t)) (KV.getByPrefix s "appointment:") = false
      ∧ resolve_owner uid appointmentData s = (Next owner, s)
      ∧ let appointmentId := "appointment:" +:+ pretty now in
        let appointment := new_appointment appointmentData owner now in
        let indexKey := "user:" +:+ js_toString owner +:+ ":appointments" in
        let s1 : KV.store := <[ appointmentId := appointment ]> s in
        (status r.1 = 500 ∧ r.2 = s1
         ∧ ¬ ∃ ids, index_list s1 indexKey "appointmentIds" = VArr ids)
        ∨ (r.1 = Json 200 {[ "appointment" := VObj appointment ]}
           ∧ ∃ ids, index_list s1 indexKey "appointmentIds" = VArr ids
                    ∧ r.2 = <[ indexKey :=
                                 <[ "appointmentIds" := VArr (ids ++ [VStr appointmentId]) ]>
                                   (default {[ "appointmentIds" := VArr [] ]} (s1 !! indexKey)) ]> s1).
Proof.
  intros r. subst r.
  destruct user as [uid|]; [|left; split; [done|set_solver]].
  destruct body as [appointmentData|]; [|left; split; [done|set_solver]].
  unfold createAppointment.
  cbv beta iota zeta delta
    [try_catch mbind route_bind mret route_ret reply raise kv_get kv_set
     kv_getByPrefix kv_get_or getUser req_json iso_date push].
  destruct (new_Date (field appointmentData "dateTime")) as [t|] eqn:Ht;
    [|left; split; [done|set_solver]].
  cbv beta iota.
  destruct (existsb (on_date _) _) eqn:Hb; [left; split; [done|set_solver]|].
  destruct (existsb (in_buffer _) _) eqn:Hc; [left; split; [done|set_solver]|].
  pose proof (resolve_owner_frame uid appointmentData s) as Hfr.
  destruct (resolve_owner uid appointmentData s) as [[owner|r|] s'] eqn:Hres;
    simpl in Hfr; subst s'.
  - right. exists uid, appointmentData, t, owner.
    do 5 (split; [done|]). split; [done|]. cbv zeta.
    unfold index_list, KV.get, KV.set, new_appointment.
    destruct (field (default _ (_ !! _)) "appointmentIds") eqn:Hidx;
      try (left; split; [done|]; split; [done|]; by intros [? ?]).
    right. split; [done|]. eexists. split; [done|]. done.
  - left. split; [done|].
    unfold resolve_owner in Hres. revert Hres. route_unfold.
    repeat (case_match; simplify_eq; simpl; try done); intros; simplify_eq; set_solver.
  - left. split; [done|]. set_solver.
Qed.
End Booking.

Section BufferInvariant.
Context `{RT : Runtime}.

Lemma new_appointment_dateTime (appointmentData : obj) (owner : value) (now : Z) :
  field (new_appointment appointmentData owner now) "dateTime"
  = field appointmentData "dateTime".
Proof.
  unfold new_appointment, field. rewrite !lookup_insert_ne by done.
  rewrite lookup_union. destruct (appointmentData !! "dateTime"); [done|].
  rewrite lookup_insert_ne by done. by rewrite lookup_singleton_ne.
Qed.

Lemma new_appointment_status (appointmentData : obj) (owner : value) (now : Z) :
  field (new_appointment appointmentData owner now) "status" = VStr "pending".
Proof.
  unfold new_appointment, field. rewrite !lookup_insert_ne by done.
  by rewrite lookup_insert_eq.
Qed.

Lemma index_key_not_appointment (owner : string) :
  String.prefix "appointment:" ("user:" +:+ owner +:+ ":appointments") = false.
Proof. done. Qed.

Lemma within_30_minutes_sym (t1 t2 : Z) :
  within_30_minutes t1 t2 -> within_30_minutes t2 t1.
Proof. unfold within_30_minutes. lia. Qed.

(** [createAppointment] keeps the 30 minutes buffer. Whatever the request
    and whatever it answers, if no two non-cancelled appointments of the
    store were within 30 minutes of each other before, none are after. *)
Theorem createAppointment_keeps_buffer (user : option string) (body : option obj)
    (now : Z) (s : KV.store) :
  buffer_respected s ->
  buffer_respected (createAppointment user body now s).2.
Proof.
  intros Hinv.
  destruct (createAppointment_cases user body now s)
    as [[-> _] | (uid & d & t & owner & -> & -> & Ht & Hb & Hc & Hres & Hend)]; [done|].
  cbv zeta in Hend.
  set (aptId := "appointment:" +:+ pretty now) in *.
  set (apt := new_appointment d owner now) in *.
  assert (Hlook : ∀ k, String.prefix "appointment:" k = true ->
            (createAppointment (Some uid) (Some d) now s).2 !! k
            = (<[ aptId := apt ]> s : KV.store) !! k).
  { intros k Hk. destruct Hend as [(_ & -> & _) | (_ & ids & _ & ->)]; [done|].
    rewrite lookup_insert_ne; [done|]. intros <-.
    by rewrite index_key_not_appointment in Hk. }
  assert (Hfar : ∀ k a ta tb, k ≠ aptId -> s !! k = Some a ->
            String.prefix "appointment:" k = true -> booked_at a ta ->
            booked_at apt tb -> ¬ within_30_minutes ta tb).
  { intros k a ta tb Hne Hk Hp Ha [_ Hb'] Hw.
    unfold apt in Hb'. rewrite new_appointment_dateTime, Ht in Hb'. injection Hb' as <-.
    assert (existsb (in_buffer (Some t)) (KV.getByPrefix s "appointment:") = true);
      [|congruence].
    apply conflict_spec. exists a, ta. split; [by exists k|]. done. }
  intros k1 k2 a1 a2 t1 t2 Hne H1 Hp1 H2 Hp2 Hb1 Hb2.
  rewrite Hlook in H1, H2 by done.
  destruct (decide (k1 = aptId)) as [->|Hn1]; destruct (decide (k2 = aptId)) as [->|Hn2];
    try done.
  - rewrite lookup_insert_eq in H1. rewrite lookup_insert_ne in H2 by done.
    injection H1 as <-. intros Hw%within_30_minutes_sym. by eapply Hfar.
  - rewrite lookup_insert_eq in H2. rewrite lookup_insert_ne in H1 by done.
    injection H2 as <-. by eapply Hfar.
  - rewrite lookup_insert_ne in H1, H2 by done. by eapply (Hinv k1 k2).
Qed.
End BufferInvariant.

Section BookingOutcome.
Context `{RT : Runtime}.

(** The statuses of [createAppointment], and its failures that leave the
    store as it was. *)
Theorem createAppointment_failures (user : option string) (body : option obj)
    (now : Z) (s : KV.store) :
  let r := createAppointment user body now s in
  status r.1 ∈ [200; 401; 404; 409; 500]
  ∧ (status r.1 ∈ [401; 404; 409] -> r.2 = s)
  ∧ (user = None -> status r.1 = 401)
  ∧ (is_Some user -> body = None -> status r.1 = 500 ∧ r.2 = s).
Proof.
  intros r. subst r. split; [|split; [|split]].
  - destruct (createAppointment_cases user body now s)
      as [[_ Hst] | (uid & d & t & owner & _ & _ & _ & _ & _ & _ & Hend)].
    + repeat (apply elem_of_cons in Hst as [-> | Hst]; [code_in|]).
      by apply elem_of_nil in Hst.
    + cbv zeta in Hend. destruct Hend as [(-> & _) | (-> & _)]; code_in.
  - intros Hst.
    destruct (createAppointment_cases user body now s)
      as [[-> _] | (uid & d & t & owner & _ & _ & _ & _ & _ & _ & Hend)]; [done|].
    cbv zeta in Hend. destruct Hend as [(E & _) | (E & _)]; rewrite E in Hst;
      code_out Hst.
  - by intros ->.
  - by intros [uid ->] ->.
Qed.

(** What a successful [createAppointment] leaves behind. *)
Theorem createAppointment_success (user : option string) (body : option obj)
    (now : Z) (s : KV.store) :
  let r := createAppointment user body now s in
  let appointmentId := "appointment:" +:+ pretty now in
  status r.1 = 200 ->
  ∃ uid appointmentData owner,
    user = Some uid ∧ body = Some appointmentData
    ∧ resolve_owner uid appointmentData s = (Next owner, s)
    ∧ let appointment := new_appointment appointmentData owner now in
      let indexKey := "user:" +:+ js_toString owner +:+ ":appointments" in
      r.1 = Json 200 {[ "appointment" := VObj appointment ]}
      ∧ r.2 !! appointmentId = Some appointment
      ∧ field appointment "status" = VStr "pending"
      ∧ field appointment "dateTime" = field appointmentData "dateTime"
      ∧ (∃ ids, index_list s indexKey "appointmentIds" = VArr ids
                ∧ index_list r.2 indexKey "appointmentIds"
                  = VArr (ids ++ [VStr appointmentId]))
      ∧ ∀ k, k ≠ appointmentId -> k ≠ indexKey -> r.2 !! k = s !! k.
Proof.
  intros r appointmentId H200. subst r.
  destruct (createAppointment_cases user body now s)
    as [[_ Hst] | (uid & d & t & owner & -> & -> & Ht & Hb & Hc & Hres & Hend)].
  { rewrite H200 in Hst. code_out Hst. }
  cbv zeta in Hend. fold appointmentId in Hend.
  destruct Hend as [(E & _) | (Hr & ids & Hidx & Hs)]; [congruence|].
  exists uid, d, owner. do 3 (split; [done|]). cbv zeta.
  assert (Hkey : "user:" +:+ js_toString owner +:+ ":appointments" ≠ appointmentId) by done.
  split; [done|]. rewrite Hs. split; [|split; [|split; [|split]]].
  - rewrite lookup_insert_ne by done. by rewrite lookup_insert_eq.
  - apply new_appointment_status.
  - apply new_appointment_dateTime.
  - exists ids. unfold index_list in *. rewrite lookup_insert_ne in Hidx by done.
    split; [done|]. rewrite lookup_insert_eq. cbn [default from_option id].
    unfold field. by rewrite lookup_insert_eq.
  - intros k Hk1 Hk2. by rewrite !lookup_insert_ne.
Qed.

(** No double booking through [createAppointment]. Once a request for
    time [t] has been accepted, every later request on the store it left,
    by anyone, for a time within 30 minutes of [t] is rejected with 409 and
    changes nothing. *)
Theorem createAppointment_twice (uid uid' : string) (body body' : obj)
    (now now' t t' : Z) (s : KV.store) :
  let r := createAppointment (Some uid) (Some body) now s in
  status r.1 = 200 ->
  new_Date (field body "dateTime") = Some t ->
  new_Date (field body' "dateTime") = Some t' ->
  within_30_minutes t t' ->
  let r' := createAppointment (Some uid') (Some body') now' r.2 in
  status r'.1 = 409 ∧ r'.2 = r.2.
Proof.
  intros r H200 Ht Ht' Hw r'.
  assert (∃ owner, r.2 !! ("appointment:" +:+ pretty now)
                   = Some (new_appointment body owner now)) as [owner Hstored].
  { subst r.
    destruct (createAppointment_cases (Some uid) (Some body) now s)
      as [[_ Hst] | (u & d & t0 & owner & [= <-] & [= <-] & _ & _ & _ & _ & Hend)].
    { rewrite H200 in Hst. code_out Hst. }
    cbv zeta in Hend. destruct Hend as [(E & _) | (_ & ids & _ & ->)]; [congruence|].
    exists owner. rewrite lookup_insert_ne by done. by rewrite lookup_insert_eq. }
  pose proof (new_appointment_status body owner now) as Hst.
  pose proof (new_appointment_dateTime body owner now) as Hdt.
  assert (existsb (in_buffer (Some t')) (KV.getByPrefix r.2 "appointment:") = true) as Hc.
  { apply conflict_spec. eexists _, t.
    split; [exists ("appointment:" +:+ pretty now); split; [exact Hstored | apply prefix_app]|].
    split; [|done].
    split; [by rewrite Hst | by rewrite Hdt]. }
  subst r'.
  destruct (existsb (on_date (slice_0_10 (toISOString t'))) (KV.getByPrefix r.2 "block:"))
    eqn:Hb.
  - by erewrite createAppointment_blocked.
  - by erewrite createAppointment_conflict.
Qed.
End BookingOutcome.

Lemma block_key_not_appointment (k k' : string) :
  String.prefix "appointment:" k = true -> String.prefix "block:" k' = true -> k' ≠ k.
Proof.
  intros Hk%String.prefix_correct Hk'%String.prefix_correct ->.
  destruct k as [|a k]; [done|]. simpl in Hk, Hk'. congruence.
Qed.

Lemma resolved_app (s : KV.store) (ids ids' : list value) :
  resolved s (ids ++ ids') = resolved s ids ++ resolved s ids'.
Proof. unfold resolved, KV.mget. by rewrite fmap_app, map_app, omap_app. Qed.

Lemma resolved_singleton (s : KV.store) (k : string) (o : obj) :
  s !! k = Some o -> resolved s [VStr k] = [o].
Proof. intros Hk. unfold resolved, KV.mget. simpl. unfold KV.get. by rewrite Hk. Qed.

Section Listing.
Context `{RT : Runtime}.

(** A booking shows in the list of the person it is filed under. After
    [createAppointment] has answered 200, [getAppointments] of the resolved
    owner answers 200 with a list whose last entry is the new appointment. *)
Theorem booked_then_listed (uid : string) (body : obj) (now : Z) (s : KV.store) :
  let r := createAppointment (Some uid) (Some body) now s in
  status r.1 = 200 ->
  ∃ owner earlier,
    resolve_owner uid body s = (Next owner, s)
    ∧ getAppointments (Some (js_toString owner)) r.2
      = (Json 200 {[ "appointments" :=
                       VArr (VObj <$> (earlier ++ [new_appointment body owner now])) ]},
         r.2).
Proof.
  intros r H200. subst r.
  destruct (createAppointment_cases (Some uid) (Some body) now s)
    as [[_ Hst] | (u & d & t & owner & [= <-] & [= <-] & _ & _ & _ & Hres & Hend)].
  { rewrite H200 in Hst. code_out Hst. }
  cbv zeta in Hend. destruct Hend as [(E & _) | (_ & ids & _ & Hs)]; [congruence|].
  exists owner, (resolved (createAppointment (Some uid) (Some body) now s).2 ids).
  split; [done|]. rewrite Hs.
  set (s2 := <[ _ := _ ]> (<[ _ := _ ]> s)).
  assert (Hnew : s2 !! ("appointment:" +:+ pretty now)
                 = Some (new_appointment body owner now)).
  { unfold s2. rewrite lookup_insert_ne by done. by rewrite lookup_insert_eq. }
  assert (Hidx : s2 !! ("user:" +:+ js_toString owner +:+ ":appointments")
                 = Some (<[ "appointmentIds" :=
                              VArr (ids ++ [VStr ("appointment:" +:+ pretty now)]) ]>
                           (default {[ "appointmentIds" := VArr [] ]}
                              ((<[ "appointment:" +:+ pretty now :=
                                     new_appointment body owner now ]> s : KV.store)
                                 !! ("user:" +:+ js_toString owner +:+ ":appointments"))))).
  { unfold s2. by rewrite lookup_insert_eq. }
  unfold getAppointments. route_unfold. unfold KV.get. rewrite Hidx.
  cbn [default from_option id]. unfold field at 1. rewrite lookup_insert_eq.
  cbn [default from_option id].
  change (omap id (KV.mget s2 (map js_toString ?l))) with (resolved s2 l).
  by rewrite resolved_app, (resolved_singleton _ _ _ Hnew).
Qed.
End Listing.

Section Cancelling.
Context `{RT : Runtime}.

(** A status the payload names is the status of the updated record. *)
Lemma updated_status (updates record : obj) (now : Z) (v : value) :
  updates !! "status" = Some v ->
  field (<[ "updatedAt" := VStr (toISOString now) ]> (updates ∪ record)) "status" = v.
Proof.
  intros Hv. unfold field. rewrite lookup_insert_ne by done.
  by rewrite lookup_union, Hv, union_Some_l.
Qed.

(** A cancelled appointment gives its time back. In a store that
    respects the buffer, once [updateAppointment] has set the status of the
    appointment booked at [t] to cancelled, a booking for [t] is no longer
    answered 409, unless the day is blocked. *)
Theorem cancel_then_rebook (uid uid' k : string) (apt updates body : obj)
    (now now' t : Z) (s : KV.store) :
  buffer_respected s ->
  String.prefix "appointment:" k = true ->
  s !! k = Some apt ->
  booked_at apt t ->
  updates !! "status" = Some (VStr "cancelled") ->
  let r := updateAppointment (Some uid) k (Some updates) now s in
  status r.1 = 200 ->
  new_Date (field body "dateTime") = Some t ->
  no_block_on s t ->
  status (createAppointment (Some uid') (Some body) now' r.2).1 ≠ 409.
Proof.
  intros Hinv Hk Hs Hb Hu r H200 Ht Hfree.
  assert (r.2 = <[ k := <[ "updatedAt" := VStr (toISOString now) ]> (updates ∪ apt) ]> s)
    as Hr.
  { subst r. revert H200. unfold updateAppointment. route_unfold.
    unfold KV.get, KV.set. rewrite Hs.
    repeat (case_match; simplify_eq; simpl; try done). }
  rewrite Hr. apply createAppointment_free with t; [done|..].
  - apply no_block_on_scan. intros (b & (k' & Hb' & Hp') & Hd). apply Hfree.
    exists b. split; [|done]. exists k'. split; [|done].
    rewrite lookup_insert_ne in Hb'; [done|].
    intros <-. by eapply block_key_not_appointment.
  - apply no_conflict_at_scan. intros (a & t1 & (k' & Ha & Hp') & Hb1 & Hw).
    destruct (decide (k' = k)) as [->|Hne].
    + rewrite lookup_insert_eq in Ha. injection Ha as <-.
      destruct Hb1 as [Hst _]. by rewrite (updated_status _ _ _ _ Hu) in Hst.
    + rewrite lookup_insert_ne in Ha by done.
      by eapply (Hinv k' k a apt t1 t).
Qed.

(** Strangers are refused. A signed-in user whose profile is neither
    staff nor admin is answered 403 on the pet, the health records and the
    appointment of somebody else, and nothing is written. *)
Theorem strangers_are_refused (s : KV.store) (uid key : string) (record updates : obj)
    (now : Z) :
  plain_user s uid ->
  s !! key = Some record ->
  (field record "ownerId" ≠ VStr uid ->
   updatePet (Some uid) key (Some updates) now s = (Json 403 (error "Forbidden"), s)
   ∧ deletePet (Some uid) key s
     = (Json 403 (error "Forbidden: only owner or staff may delete"), s)
   ∧ getHealthRecords (Some uid) key s = (Json 403 (error "Forbidden"), s))
  ∧ (field record "userId" ≠ VStr uid ->
     updateAppointment (Some uid) key (Some updates) now s
     = (Json 403 (error "Forbidden"), s)).
Proof.
  intros (profile & Hp & Hs1%strict_eq_str_false & Hs2%strict_eq_str_false) Hk.
  split; intros Ho%strict_eq_str_false; repeat split;
    unfold updatePet, deletePet, getHealthRecords, updateAppointment; route_unfold;
    unfold KV.get; rewrite Hk, Hp, Ho; cbv beta iota; unfold not_staff;
    by rewrite Hs1, Hs2.
Qed.
End Cancelling.

(** *** Pets *)

Section Pets.
Context `{RT : Runtime}.

Lemma new_pet_field (petData : obj) (uid : string) (now : Z) (name : string) :
  name ∉ ["updatedAt"; "createdAt"; "id"; "ownerId"] ->
  field (new_pet petData uid now) name = field petData name.
Proof.
  intros Hn. unfold new_pet, field.
  rewrite !lookup_insert_ne by (intros <-; apply Hn; code_in).
  rewrite lookup_union. destruct (petData !! name); [by rewrite union_Some_l|].
  rewrite (left_id None _).
  rewrite lookup_insert_ne by (intros <-; apply Hn; code_in).
  rewrite lookup_singleton_ne by (intros <-; apply Hn; code_in). done.
Qed.

Lemma find_first_true {A} (f : A -> option bool) (l : list A) (x : A) :
  find_first f l = Some (Some x) -> f x = Some true.
Proof.
  induction l as [|y l IH]; [done|]. simpl.
  destruct (f y) as [[]|] eqn:Hy; [|done..]. by intros [= <-].
Qed.

(** Every way [createPet] can end. *)
Lemma createPet_cases (user : option string) (body : option obj) (now : Z)
    (s : KV.store) :
  let r := createPet user body now s in
  (r.2 = s ∧ status r.1 ∈ [401; 500; 409])
  ∨ ∃ uid petData ids,
      user = Some uid ∧ body = Some petData
      ∧ let petId := "pet:" +:+ uid +:+ ":" +:+ pretty now in
        let indexKey := "user:" +:+ uid +:+ ":pets" in
        let pet := new_pet petData uid now in
        index_list s indexKey "petIds" = VArr ids
        ∧ find_first (is_duplicate petData) (KV.mget s (js_toString <$> ids)) = Some None
        ∧ r = (Json 200 {[ "pet" := VObj pet ]},
               <[ indexKey := <[ "petIds" := VArr (ids ++ [VStr petId]) ]>
                                (default {[ "petIds" := VArr [] ]} (s !! indexKey)) ]>
                 (<[ petId := pet ]> s)).
Proof.
  intros r. subst r.
  destruct user as [uid|]; [|left; split; [done|code_in]].
  destruct body as [petData|]; [|left; split; [done|code_in]].
  unfold createPet. route_unfold. unfold KV.get, KV.set.
  destruct (field (default _ (s !! _)) "petIds") as [| | | | |ids|] eqn:Hidx;
    try (left; split; [done|code_in]).
  cbv beta iota.
  destruct (find_first _ _) as [[[dup|]|]|] eqn:Hfind;
    [| by apply find_first_true in Hfind | |]; simpl;
    try (left; split; [done|code_in]).
  right. exists uid, petData, ids. do 2 (split; [done|]). cbv zeta.
  split; [done|]. split; [done|].
  rewrite lookup_insert_ne by done. rewrite Hidx. done.
Qed.

(** A new pet shows in its owner's list. After [createPet] has answered
    200, [getPets] of the same user answers 200 with a list whose last
    entry is the new pet. *)
Theorem pet_added_then_listed (uid : string) (petData : obj) (now : Z) (s : KV.store) :
  let r := createPet (Some uid) (Some petData) now s in
  status r.1 = 200 ->
  ∃ earlier,
    r.1 = Json 200 {[ "pet" := VObj (new_pet petData uid now) ]}
    ∧ getPets (Some uid) r.2
      = (Json 200 {[ "pets" := VArr (VObj <$> (earlier ++ [new_pet petData uid now])) ]},
         r.2).
Proof.
  intros r H200. subst r.
  destruct (createPet_cases (Some uid) (Some petData) now s)
    as [[_ Hst] | (u & d & ids & [= <-] & [= <-] & Hend)].
  { rewrite H200 in Hst. code_out Hst. }
  cbv zeta in Hend. destruct Hend as (_ & _ & ->). cbn [fst snd].
  set (s2 := <[ _ := _ ]> (<[ _ := _ ]> s)).
  exists (resolved s2 ids). split; [done|].
  assert (Hnew : s2 !! ("pet:" +:+ uid +:+ ":" +:+ pretty now)
                 = Some (new_pet petData uid now)).
  { unfold s2. rewrite lookup_insert_ne by done. by rewrite lookup_insert_eq. }
  unfold getPets. route_unfold. unfold KV.get.
  unfold s2 at 1. rewrite lookup_insert_eq. fold s2.
  cbn [default from_option id]. unfold field at 1. rewrite lookup_insert_eq.
  cbn [default from_option id].
  change (omap id (KV.mget s2 (map js_toString ?l))) with (resolved s2 l).
  by rewrite resolved_app, (resolved_singleton _ _ _ Hnew).
Qed.
End Pets.

Section PetsTwice.
Context `{RT : Runtime}.

Lemma pet_typed_new_pet (petData : obj) (uid : string) (now : Z) :
  pet_typed petData -> pet_typed (new_pet petData uid now).
Proof.
  unfold pet_typed. by rewrite !new_pet_field by (intros H; code_out H).
Qed.

Lemma duplicates_new_pet (candidate petData : obj) (uid : string) (now : Z) :
  duplicates candidate petData -> duplicates candidate (new_pet petData uid now).
Proof.
  unfold duplicates, same_chip, same_identity.
  by rewrite !new_pet_field by (intros H; code_out H).
Qed.

Lemma pet_typed_index (o : obj) (v : value) :
  pet_typed o -> pet_typed (<[ "petIds" := v ]> o).
Proof. unfold pet_typed, field. by rewrite !lookup_insert_ne by done. Qed.

Lemma elem_of_mget (s : KV.store) (keys : list string) (p : obj) :
  Some p ∈ KV.mget s keys ↔ ∃ k, k ∈ keys ∧ s !! k = Some p.
Proof.
  unfold KV.mget. change (map (KV.get s) keys) with (KV.get s <$> keys).
  rewrite list_elem_of_fmap. unfold KV.get. split.
  - intros (k & Hk & Hin). eauto.
  - intros (k & Hin & Hk). eauto.
Qed.

(** The same pet is not added twice. Once [createPet] has answered 200
    for a payload, a later payload of the same user that duplicates it
    (same microchip id, or same name, species and breed up to case with the
    same date of birth) is answered 409, and nothing is written. *)
Theorem same_pet_twice (uid : string) (petData petData' : obj) (now now' : Z)
    (s : KV.store) :
  pet_typed petData -> pet_typed petData' ->
  (∀ ids p, index_list s ("user:" +:+ uid +:+ ":pets") "petIds" = VArr ids ->
            Some p ∈ KV.mget s (js_toString <$> ids) -> pet_typed p) ->
  duplicates petData' petData ->
  let r := createPet (Some uid) (Some petData) now s in
  status r.1 = 200 ->
  let r' := createPet (Some uid) (Some petData') now' r.2 in
  status r'.1 = 409 ∧ r'.2 = r.2.
Proof.
  intros Ht Ht' Hs Hdup r H200 r'. subst r r'.
  destruct (createPet_cases (Some uid) (Some petData) now s)
    as [[_ Hst] | (u & d & ids & [= <-] & [= <-] & Hend)].
  { rewrite H200 in Hst. code_out Hst. }
  cbv zeta in Hend. destruct Hend as (Hidx & _ & ->). cbn [fst snd].
  set (petId := "pet:" +:+ uid +:+ ":" +:+ pretty now).
  set (indexKey := "user:" +:+ uid +:+ ":pets").
  set (index := <[ "petIds" := _ ]> _).
  set (s2 := <[ indexKey := index ]> (<[ petId := new_pet petData uid now ]> s)).
  assert (Hidx2 : index_list s2 indexKey "petIds" = VArr (ids ++ [VStr petId])).
  { unfold index_list, s2. rewrite lookup_insert_eq. cbn [default from_option id].
    unfold index, field. by rewrite lookup_insert_eq. }
  assert (Htyped : ∀ p, Some p ∈ KV.mget s2 (js_toString <$> (ids ++ [VStr petId])) ->
                        pet_typed p).
  { intros p (k & Hin & Hk)%elem_of_mget.
    destruct (decide (k = indexKey)) as [->|Hn1].
    - unfold s2 in Hk. rewrite lookup_insert_eq in Hk. injection Hk as <-.
      apply pet_typed_index.
      rewrite fmap_app in Hin. apply elem_of_app in Hin as [Hin|Hin].
      + destruct (s !! indexKey) as [o|] eqn:Ho; [|by repeat split; left].
        apply (Hs ids o Hidx). apply elem_of_mget. eauto.
      + apply list_elem_of_singleton in Hin. done.
    - unfold s2 in Hk. rewrite lookup_insert_ne in Hk by done.
      destruct (decide (k = petId)) as [->|Hn2].
      + rewrite lookup_insert_eq in Hk. injection Hk as <-.
        by apply pet_typed_new_pet.
      + rewrite lookup_insert_ne in Hk by done.
        rewrite fmap_app in Hin. apply elem_of_app in Hin as [Hin|Hin].
        * apply (Hs ids p Hidx). apply elem_of_mget. eauto.
        * apply list_elem_of_singleton in Hin. done. }
  destruct (find_first_duplicate petData' _ Ht' Htyped)
    as [(dup & Hfind & _) | (_ & Hnone)].
  - by rewrite (createPet_duplicate s2 uid petData' now' _ dup Hidx2 Hfind).
  - exfalso. apply (Hnone (new_pet petData uid now)).
    + apply elem_of_mget. exists petId. split.
      * rewrite fmap_app. apply elem_of_app. right. by apply list_elem_of_singleton.
      * unfold s2. rewrite lookup_insert_ne by done. by rewrite lookup_insert_eq.
    + by apply duplicates_new_pet.
Qed.

Lemma may_act_allowed (s : KV.store) (uid : string) (owner : value) :
  may_act s uid owner ->
  not_owner_nor_staff owner uid (s !! ("user:" +:+ uid)) s = (Next false, s).
Proof.
  unfold not_owner_nor_staff.
  destruct (strict_eq owner (VStr uid)) eqn:Ho; [done|].
  intros [Heq%strict_eq_str | (profile & -> & Hrole)]; [congruence|].
  unfold not_staff.
  destruct Hrole as [->%strict_eq_str | ->%strict_eq_str]; [done|].
  by rewrite andb_false_r.
Qed.

(** What [updatePet] writes. For the owner of the pet, or staff, the
    answer is 200, only the record of the pet changes, and in it every field
    the payload names takes the payload's value, [updatedAt] is the time of
    the request and every other field stays. *)
Theorem pet_updated (s : KV.store) (uid petId : string) (pet updates : obj) (now : Z) :
  s !! petId = Some pet ->
  may_act s uid (field pet "ownerId") ->
  ∃ updated,
    updatePet (Some uid) petId (Some updates) now s
    = (Json 200 {[ "pet" := VObj updated ]}, <[ petId := updated ]> s)
    ∧ field updated "updatedAt" = VStr (toISOString now)
    ∧ ∀ name, name ≠ "updatedAt" ->
        field updated name
        = if decide (is_Some (updates !! name)) then field updates name
          else field pet name.
Proof.
  intros Hk Hact. eexists. split; [|split].
  - unfold updatePet.
    cbv beta iota zeta delta
      [try_catch mbind route_bind mret route_ret reply raise kv_get kv_set
       getUser req_json].
    unfold KV.get. rewrite Hk. cbv beta iota.
    by rewrite (may_act_allowed _ _ _ Hact).
  - unfold field. by rewrite lookup_insert_eq.
  - intros name Hn. unfold field. rewrite lookup_insert_ne by done.
    rewrite lookup_union. destruct (updates !! name) as [v|] eqn:Hv.
    + rewrite union_Some_l. by rewrite decide_True.
    + rewrite (left_id None _). by rewrite decide_False by by intros [? ?].
Qed.
End PetsTwice.

Section PetDeleted.
Context `{RT : Runtime}.


End PetDeleted.

(** *** Access *)

Lemma staff_required_spec (s : KV.store) (uid : string) :
  staff_required (s !! ("user:" +:+ uid)) = false ↔ has_staff_role s uid.
Proof.
  unfold staff_required, has_staff_role, not_staff.
  destruct (s !! ("user:" +:+ uid)) as [profile|].
  - rewrite andb_false_iff, !negb_false_iff, !strict_eq_str. split.
    + intros H. by exists profile.
    + by intros (? & [= <-] & H).
  - split; [done|]. by intros (? & ? & _).
Qed.

Lemma staff_required_true (s : KV.store) (uid : string) :
  ¬ has_staff_role s uid -> staff_required (s !! ("user:" +:+ uid)) = true.
Proof.
  rewrite <- staff_required_spec. by destruct (staff_required _).
Qed.

Section Blocks.
Context `{RT : Runtime}.

(** The staff-only routes. To a signed-in user who has no staff or admin
    profile (or no profile at all) each of them answers 403, and nothing is
    read out or written. *)
Theorem staff_only_routes (s : KV.store) (uid : string) (body : option obj)
    (blockId : string) (now : Z) :
  ¬ has_staff_role s uid ->
  let refused := (Json 403 (error "Forbidden: Staff access required"), s) in
  getAllPets (Some uid) s = refused
  ∧ getAllAppointments (Some uid) s = refused
  ∧ getDashboardStats (Some uid) now s = refused
  ∧ getBlocks (Some uid) s = refused
  ∧ createBlock (Some uid) body now s = refused
  ∧ deleteBlock (Some uid) blockId s = refused.
Proof.
  intros Hno%staff_required_true. cbv zeta.
  unfold getAllPets, getAllAppointments, getDashboardStats, getBlocks, createBlock,
    deleteBlock, require_staff.
  route_unfold. unfold KV.get. by rewrite Hno.
Qed.

(** The routes that only read. Whatever they answer, to whomever, the
    store is afterwards as it was. *)
Theorem reads_write_nothing (s : KV.store) (user : option string) (key : string)
    (now : Z) :
  (getProfile user s).2 = s
  ∧ (getPets user s).2 = s
  ∧ (getAllPets user s).2 = s
  ∧ (getHealthRecords user key s).2 = s
  ∧ (getAppointments user s).2 = s
  ∧ (getAllAppointments user s).2 = s
  ∧ (getReminders user now s).2 = s
  ∧ (getDashboardStats user now s).2 = s
  ∧ (getBlocks user s).2 = s
  ∧ (sendReminders now s).2 = s.
Proof.
  destruct user as [uid|]; [|by repeat split].
  repeat split;
    unfold getProfile, getPets, getAllPets, getHealthRecords, getAppointments,
      getAllAppointments, getReminders, getDashboardStats, getBlocks, sendReminders,
      require_staff, kv_enrich;
    route_unfold; repeat (case_match; simplify_eq; simpl; try done).
Qed.
End Blocks.

Section Sessions.
Context `{RT : Runtime}.

Ltac not_401 :=
  unfold getProfile, createPet, getPets, getAllPets, updatePet, deletePet,
    createHealthRecord, getHealthRecords, createAppointment, getAppointments,
    getAllAppointments, updateAppointment, getReminders, getDashboardStats,
    createBlock, getBlocks, deleteBlock, require_staff, kv_enrich;
  route_unfold; try (simpl; done);
  repeat (case_match; simplify_eq; simpl; try done).

(** Requests without a valid session, and only they. The server has
    nineteen routes. Seventeen ask for a session: to a request without one
    each answers 401 and nothing is written, and to a signed-in user none of
    them answers 401, except [getProfile] when the user has no profile. The
    other two, the sign-up and the health check, ask for none: the sign-up
    never answers 401 and the health check answers 200 to everybody. *)
Theorem anonymous_refused (s : KV.store) (body : option obj) (key : string) (now : Z) :
  (let refused := (Json 401 (error "Unauthorized"), s) in
   getProfile None s = refused
   ∧ createPet None body now s = refused
   ∧ getPets None s = refused
   ∧ getAllPets None s = refused
   ∧ updatePet None key body now s = refused
   ∧ deletePet None key s = refused
   ∧ createHealthRecord None body now s = refused
   ∧ getHealthRecords None key s = refused
   ∧ createAppointment None body now s = refused
   ∧ getAppointments None s = refused
   ∧ getAllAppointments None s = refused
   ∧ updateAppointment None key body now s = refused
   ∧ getReminders None now s = refused
   ∧ getDashboardStats None now s = refused
   ∧ createBlock None body now s = refused
   ∧ getBlocks None s = refused
   ∧ deleteBlock None key s = refused)
  ∧ (∀ uid,
      (status (getProfile (Some uid) s).1 = 401 ↔ s !! ("user:" +:+ uid) = None)
      ∧ status (createPet (Some uid) body now s).1 ≠ 401
      ∧ status (getPets (Some uid) s).1 ≠ 401
      ∧ status (getAllPets (Some uid) s).1 ≠ 401
      ∧ status (updatePet (Some uid) key body now s).1 ≠ 401
      ∧ status (deletePet (Some uid) key s).1 ≠ 401
      ∧ status (createHealthRecord (Some uid) body now s).1 ≠ 401
      ∧ status (getHealthRecords (Some uid) key s).1 ≠ 401
      ∧ status (createAppointment (Some uid) body now s).1 ≠ 401
      ∧ status (getAppointments (Some uid) s).1 ≠ 401
      ∧ status (getAllAppointments (Some uid) s).1 ≠ 401
      ∧ status (updateAppointment (Some uid) key body now s).1 ≠ 401
      ∧ status (getReminders (Some uid) now s).1 ≠ 401
      ∧ status (getDashboardStats (Some uid) now s).1 ≠ 401
      ∧ status (createBlock (Some uid) body now s).1 ≠ 401
      ∧ status (getBlocks (Some uid) s).1 ≠ 401
      ∧ status (deleteBlock (Some uid) key s).1 ≠ 401)
  ∧ (∀ created, status (signup body created now s).1 ≠ 401)
  ∧ health now s
    = (Json 200 {[ "status" := VStr "ok"; "timestamp" := VStr (toISOString now) ]}, s).
Proof.
  split; [by repeat split|].
  split; [|split; [|done]];
    [|intros created; unfold signup; route_unfold;
      by destruct body, created].
  intros uid. split.
  { unfold getProfile. route_unfold. unfold KV.get.
    by destruct (s !! ("user:" +:+ uid)). }
  destruct body as [payload|]; repeat split; not_401.
Qed.
End Sessions.

(** *** Blocks *)

Section BlockRoutes.
Context `{RT : Runtime}.

Lemma createBlock_staff (s : KV.store) (uid : string) (payload : obj) (now : Z) :
  has_staff_role s uid ->
  truthy (field payload "date") = true ->
  createBlock (Some uid) (Some payload) now s
  = (Json 200 {[ "block" := VObj (new_block payload uid now) ]},
     <[ "block:" +:+ js_toString (field payload "date") := new_block payload uid now ]> s).
Proof.
  intros Hstaff%staff_required_spec Hdate.
  unfold createBlock, require_staff. route_unfold. unfold KV.get, KV.set.
  by rewrite Hstaff, Hdate.
Qed.

Lemma createBlock_cases (user : option string) (body : option obj) (now : Z)
    (s : KV.store) :
  let r := createBlock user body now s in
  r.2 = s
  ∨ ∃ uid payload, r.2 = <[ "block:" +:+ js_toString (field payload "date") :=
                              new_block payload uid now ]> s.
Proof.
  cbv zeta. destruct user as [uid|]; [|by left]. destruct body as [payload|].
  - unfold createBlock, require_staff. route_unfold. unfold KV.get, KV.set.
    repeat (case_match; simplify_eq; simpl; try by left).
    right. by exists uid, payload.
  - unfold createBlock, require_staff. route_unfold.
    repeat (case_match; simplify_eq; simpl; try by left).
Qed.

Lemma new_block_date (payload : obj) (uid : string) (now : Z) :
  field (new_block payload uid now) "date" = field payload "date".
Proof.
  unfold new_block, field at 1. rewrite lookup_insert_ne by done.
  by rewrite lookup_insert_eq.
Qed.

(** [createBlock] files every block under the key of its date. If the
    blocks of the store are keyed by their dates before a request, they are
    after it, whatever the request was. *)
Theorem createBlock_keeps_keyed (user : option string) (body : option obj) (now : Z)
    (s : KV.store) :
  blocks_keyed s ->
  blocks_keyed (createBlock user body now s).2.
Proof.
  intros Hinv.
  destruct (createBlock_cases user body now s) as [-> | (uid & payload & ->)]; [done|].
  intros k b Hk Hp.
  destruct (decide (k = "block:" +:+ js_toString (field payload "date"))) as [->|Hne].
  - rewrite lookup_insert_eq in Hk. injection Hk as <-. by rewrite new_block_date.
  - rewrite lookup_insert_ne in Hk by done. by apply Hinv.
Qed.


(** Deleting the block of a day opens it again. With the blocks keyed by
    their dates, once staff have deleted the block of the day of [t], no
    block is on that day, and a booking for [t] is answered 409 only for a
    conflict with another appointment. *)
Theorem block_lifted (s : KV.store) (uid : string) (t : Z) :
  blocks_keyed s ->
  has_staff_role s uid ->
  let blockId := "block:" +:+ calendar_date t in
  let r := deleteBlock (Some uid) blockId s in
  r = (Json 200 {[ "deleted" := VStr blockId ]}, delete blockId s)
  ∧ no_block_on r.2 t
  ∧ ∀ uid' body now',
      new_Date (field body "dateTime") = Some t ->
      no_conflict_at s t ->
      status (createAppointment (Some uid') (Some body) now' r.2).1 ≠ 409.
Proof.
  intros Hinv Hstaff%staff_required_spec blockId r.
  assert (r = (Json 200 {[ "deleted" := VStr blockId ]}, delete blockId s)) as ->.
  { subst r. unfold deleteBlock, require_staff. route_unfold. unfold KV.get, KV.del.
    by rewrite Hstaff. }
  cbn [fst snd].
  assert (no_block_on (delete blockId s) t) as Hopen.
  { intros (b & (k & Hk & Hp) & Hd).
    apply lookup_delete_Some in Hk as [Hne Hk]. apply Hne.
    rewrite (Hinv k b Hk Hp). unfold blocks_date in Hd. rewrite Hd.
    cbn [js_toString]. reflexivity. }
  do 2 (split; [done|]). intros uid' body now' Ht Hfree.
  apply createAppointment_free with t; [done|by apply no_block_on_scan|].
  apply no_conflict_at_scan. intros (a & t1 & (k & Hk & Hp) & Hb & Hw).
  apply Hfree. exists a, t1. split; [|done]. exists k. split; [|done].
  by apply lookup_delete_Some in Hk as [_ Hk].
Qed.

(** A block made and deleted leaves no trace. For a day that had no
    block, [createBlock] followed by [deleteBlock] of the key it answered
    gives back the store as it was. *)
Theorem block_create_delete (s : KV.store) (uid d : string) (payload : obj) (now : Z) :
  has_staff_role s uid ->
  field payload "date" = VStr d ->
  d ≠ "" ->
  s !! ("block:" +:+ d) = None ->
  let r := createBlock (Some uid) (Some payload) now s in
  field (new_block payload uid now) "id" = VStr ("block:" +:+ d)
  ∧ deleteBlock (Some uid) ("block:" +:+ d) r.2
    = (Json 200 {[ "deleted" := VStr ("block:" +:+ d) ]}, s).
Proof.
  intros Hstaff Hdate Hd Hnone r.
  assert (truthy (field payload "date") = true) as Htr.
  { rewrite Hdate. by destruct d. }
  subst r. rewrite (createBlock_staff _ _ _ _ Hstaff Htr), Hdate. cbn [fst snd js_toString].
  split.
  { unfold new_block, field at 1. by rewrite lookup_insert_eq, Hdate. }
  assert (staff_required ((<[ "block:" +:+ d := new_block payload uid now ]> s : KV.store)
                            !! ("user:" +:+ uid)) = false) as Hs2.
  { rewrite lookup_insert_ne by done. by apply staff_required_spec. }
  unfold deleteBlock, require_staff. route_unfold. unfold KV.get, KV.del.
  rewrite Hs2. cbv beta iota. by rewrite delete_insert_eq, delete_id.
Qed.
End BlockRoutes.

(** *** Health records, the reminder job and sign-up *)






Section Records.
Context `{RT : Runtime}.



(** What a sign-up leaves. The profile is stored under the id the
    identity provider gave and [getProfile] reads it back; its role is the
    one the request names, or owner when it names none, so that a request
    that names staff or admin makes a staff profile. When the provider
    refuses, the answer is 400 with its message and nothing is stored. *)
Theorem signup_profile (s : KV.store) (credentials user : obj) (now : Z) :
  let uid := js_toString (field user "id") in
  let r := signup (Some credentials) (AuthCreated user) now s in
  (∃ profile,
     r = (Json 200 {[ "user" := VObj user ]}, <[ "user:" +:+ uid := profile ]> s)
     ∧ getProfile (Some uid) r.2 = (Json 200 {[ "profile" := VObj profile ]}, r.2)
     ∧ field profile "role" = js_or (field credentials "role") (VStr "owner"))
  ∧ (has_staff_role r.2 uid
     ↔ field credentials "role" = VStr "staff" ∨ field credentials "role" = VStr "admin")
  ∧ ∀ message, signup (Some credentials) (AuthError message) now s
               = (Json 400 {[ "error" := message ]}, s).
Proof.
  intros uid r. subst r. unfold signup. route_unfold. unfold KV.set. fold uid.
  cbn [fst snd]. split; [|split; [|done]].
  - eexists. split; [done|]. split.
    + unfold getProfile. route_unfold. unfold KV.get. by rewrite lookup_insert_eq.
    + unfold field at 1. rewrite !lookup_insert_ne by done. by rewrite lookup_insert_eq.
  - unfold has_staff_role. rewrite lookup_insert_eq.
    assert (∀ role, js_or (field credentials "role") (VStr "owner") = VStr role ->
                    role ≠ "owner" -> field credentials "role" = VStr role) as Hback.
    { unfold js_or. intros role. destruct (truthy _); [done|]. by intros [= <-]. }
    assert (∀ role, role ≠ "" -> field credentials "role" = VStr role ->
                    js_or (field credentials "role") (VStr "owner") = VStr role) as Hforth.
    { unfold js_or. intros role Hr ->. by destruct role. }
    split.
    + intros (profile & [= <-] & Hrole). unfold field at 1 3 in Hrole.
      rewrite !lookup_insert_ne in Hrole by done. rewrite lookup_insert_eq in Hrole.
      cbn [default from_option id] in Hrole.
      destruct Hrole as [H|H]; [left|right]; by apply Hback.
    + intros Hrole. eexists. split; [done|]. unfold field at 1 3.
      rewrite !lookup_insert_ne by done. rewrite lookup_insert_eq.
      cbn [default from_option id].
      destruct Hrole as [H|H]; [left|right]; by apply Hforth.
Qed.
End Records.

(** *** The booking screen *)

Section SlotsOfTheDay.
Context `{RT : Runtime} `{LC : LocalClock}.


End SlotsOfTheDay.

Section VaccinationFlags.
Context `{RT : Runtime}.

End VaccinationFlags.


Section AllPets.
Context `{RT : Runtime}.

End AllPets.

(** *** The dashboard *)



Section DashboardFigures.
Context `{RT : Runtime}.

End DashboardFigures.

(** ** The further properties on the sample clinic *)

Lemma sample_keys :
  (map_to_list Sample.clinic).*1
  = ["user:u-ana:appointments"; "user:u-ana:pets"; "user:u-ana"; "user:u-vet";
     "appointment:1714100000000"; "block:2024-05-02"; "pet:u-ana:1714000000000"].
Proof. run. Qed.

Lemma sample_key_elem (k : string) (a : obj) :
  Sample.clinic !! k = Some a -> k ∈ (map_to_list Sample.clinic).*1.
Proof.
  intros Hk%elem_of_map_to_list. by apply (list_elem_of_fmap_2 fst) in Hk.
Qed.

Lemma sample_appointment_keys (k : string) (a : obj) :
  Sample.clinic !! k = Some a -> String.prefix "appointment:" k = true ->
  k = "appointment:1714100000000".
Proof.
  intros Hk%sample_key_elem Hp. rewrite sample_keys in Hk.
  repeat (apply elem_of_cons in Hk as [-> | Hk]; [first [reflexivity | discriminate Hp]|]).
  by apply elem_of_nil in Hk.
Qed.

Lemma sample_block_keys (k : string) (b : obj) :
  Sample.clinic !! k = Some b -> String.prefix "block:" k = true ->
  k = "block:2024-05-02".
Proof.
  intros Hk%sample_key_elem Hp. rewrite sample_keys in Hk.
  repeat (apply elem_of_cons in Hk as [-> | Hk]; [first [reflexivity | discriminate Hp]|]).
  by apply elem_of_nil in Hk.
Qed.

Lemma sample_buffer_respected : buffer_respected (RT := Host.utc) Sample.clinic.
Proof.
  intros k1 k2 a1 a2 t1 t2 Hne H1 Hp1 H2 Hp2 _ _.
  apply (sample_appointment_keys _ _ H1) in Hp1.
  apply (sample_appointment_keys _ _ H2) in Hp2. congruence.
Qed.

Lemma sample_blocks_keyed : blocks_keyed Sample.clinic.
Proof.
  intros k b Hk Hp. pose proof (sample_block_keys _ _ Hk Hp) as ->.
  assert (Sample.clinic !! "block:2024-05-02" = Some Sample.holiday) as E by run.
  rewrite E in Hk. by injection Hk as <-.
Qed.

Lemma sample_no_block (t : Z) :
  calendar_date t ≠ "2024-05-02" -> no_block_on Sample.clinic t.
Proof.
  intros Hd (b & (k & Hk & Hp) & Hb). pose proof (sample_block_keys _ _ Hk Hp) as ->.
  assert (Sample.clinic !! "block:2024-05-02" = Some Sample.holiday) as E by run.
  rewrite E in Hk. injection Hk as <-. unfold blocks_date in Hb.
  apply Hd. by injection Hb.
Qed.

Lemma sample_vet_is_staff : has_staff_role Sample.clinic "u-vet".
Proof. exists Sample.vet. split; [run | left; run]. Qed.

Lemma sample_ana_is_not_staff : ¬ has_staff_role Sample.clinic "u-ana".
Proof. rewrite <- staff_required_spec. by vm_compute. Qed.

Lemma createAppointment_keeps_buffer_witness :
  buffer_respected (RT := Host.utc)
    (createAppointment (RT := Host.utc) (Some "u-ana") (Some Sample.request_ghost)
       Sample.now Sample.clinic).2.
Proof.
  apply createAppointment_keeps_buffer. exact sample_buffer_respected.
Defined.

Lemma createAppointment_success_witness :
  (createAppointment (RT := Host.utc) (Some "u-ana") (Some Sample.request_ghost)
     Sample.now Sample.clinic).2 !! ("appointment:" +:+ pretty Sample.now)
  = Some (new_appointment Sample.request_ghost (VStr "u-ana") Sample.now).
Proof.
  destruct (createAppointment_success (RT := Host.utc) (Some "u-ana")
              (Some Sample.request_ghost) Sample.now Sample.clinic)
    as (uid & d & owner & [= <-] & [= <-] & Hres & Hpost); [run|].
  assert (resolve_owner "u-ana" Sample.request_ghost Sample.clinic
          = (Next (VStr "u-ana"), Sample.clinic)) as E by run.
  rewrite E in Hres. injection Hres as <-.
  cbv zeta in Hpost. by destruct Hpost as (_ & Hst & _).
Defined.

Lemma createAppointment_twice_witness :
  let r := createAppointment (RT := Host.utc) (Some "u-ana") (Some Sample.request_ghost)
             Sample.now Sample.clinic in
  let r' := createAppointment (RT := Host.utc) (Some "u-vet") (Some Cases.request_1020)
              Sample.a_week_later r.2 in
  status r'.1 = 409 ∧ r'.2 = r.2.
Proof.
  apply (createAppointment_twice (RT := Host.utc) "u-ana" "u-vet" Sample.request_ghost
           Cases.request_1020 Sample.now Sample.a_week_later
           1714730400000 1714731600000 Sample.clinic); run.
Defined.

Lemma booked_then_listed_witness :
  ∃ owner earlier,
    resolve_owner "u-ana" Sample.request_ghost Sample.clinic
    = (Next owner, Sample.clinic)
    ∧ getAppointments (Some (js_toString owner))
        (createAppointment (RT := Host.utc) (Some "u-ana") (Some Sample.request_ghost)
           Sample.now Sample.clinic).2
      = (Json 200 {[ "appointments" :=
                       VArr (VObj <$> (earlier
                                       ++ [new_appointment Sample.request_ghost owner
                                             Sample.now])) ]},
         (createAppointment (RT := Host.utc) (Some "u-ana") (Some Sample.request_ghost)
            Sample.now Sample.clinic).2).
Proof.
  apply (booked_then_listed (RT := Host.utc) "u-ana" Sample.request_ghost Sample.now
           Sample.clinic). run.
Defined.

Lemma cancel_then_rebook_witness :
  status (createAppointment (RT := Host.utc) (Some "u-vet") (Some Cases.request_0900)
            Sample.a_week_later
            (updateAppointment (Some "u-ana") "appointment:1714100000000"
               (Some Cases.cancel) Sample.now Sample.clinic).2).1 ≠ 409.
Proof.
  apply (cancel_then_rebook (RT := Host.utc) "u-ana" "u-vet" "appointment:1714100000000"
           Sample.checkup Cases.cancel Cases.request_0900 Sample.now Sample.a_week_later
           1714554000000 Sample.clinic).
  - exact sample_buffer_respected.
  - run.
  - run.
  - split; run.
  - run.
  - run.
  - run.
  - apply sample_no_block. run.
Defined.

Lemma strangers_are_refused_witness :
  updatePet (Some "u-bob") "pet:u-ana:1714000000000" (Some Cases.weight) Sample.now
    Cases.clinic_with_bob
  = (Json 403 (error "Forbidden"), Cases.clinic_with_bob).
Proof.
  destruct (strangers_are_refused Cases.clinic_with_bob "u-bob" "pet:u-ana:1714000000000"
              Sample.rex Cases.weight Sample.now) as [Hpet _].
  - exists Cases.bob. split; [run | split; run].
  - run.
  - apply Hpet. run.
Defined.

Lemma pet_added_then_listed_witness :
  ∃ earlier,
    (createPet (RT := Host.utc) (Some "u-ana") (Some Cases.milo) Sample.now
       Sample.clinic).1
    = Json 200 {[ "pet" := VObj (new_pet Cases.milo "u-ana" Sample.now) ]}
    ∧ getPets (Some "u-ana")
        (createPet (RT := Host.utc) (Some "u-ana") (Some Cases.milo) Sample.now
           Sample.clinic).2
      = (Json 200 {[ "pets" :=
                       VArr (VObj <$> (earlier ++ [new_pet Cases.milo "u-ana" Sample.now])) ]},
         (createPet (RT := Host.utc) (Some "u-ana") (Some Cases.milo) Sample.now
            Sample.clinic).2).
Proof.
  apply (pet_added_then_listed (RT := Host.utc) "u-ana" Cases.milo Sample.now
           Sample.clinic). run.
Defined.

Lemma sample_pets_typed (ids : list value) (p : obj) :
  index_list Sample.clinic ("user:" +:+ "u-ana" +:+ ":pets") "petIds" = VArr ids ->
  Some p ∈ KV.mget Sample.clinic (js_toString <$> ids) ->
  pet_typed p.
Proof.
  assert (index_list Sample.clinic ("user:" +:+ "u-ana" +:+ ":pets") "petIds"
          = VArr [VStr "pet:u-ana:1714000000000"]) as -> by run.
  intros [= <-].
  assert (KV.mget Sample.clinic (js_toString <$> [VStr "pet:u-ana:1714000000000"])
          = [Some Sample.rex]) as -> by run.
  intros [= ->]%list_elem_of_singleton.
  repeat split; vm_compute; right; by eexists.
Qed.

Lemma milo_typed : pet_typed Cases.milo.
Proof. repeat split; vm_compute; first [by left | right; by eexists]. Qed.

Lemma milo_again_typed : pet_typed Cases.milo_again.
Proof. repeat split; vm_compute; first [by left | right; by eexists]. Qed.

Lemma same_pet_twice_witness :
  let r := createPet (RT := Host.utc) (Some "u-ana") (Some Cases.milo) Sample.now
             Sample.clinic in
  let r' := createPet (RT := Host.utc) (Some "u-ana") (Some Cases.milo_again)
              Sample.a_week_later r.2 in
  status r'.1 = 409 ∧ r'.2 = r.2.
Proof.
  apply (same_pet_twice (RT := Host.utc) "u-ana" Cases.milo Cases.milo_again Sample.now
           Sample.a_week_later Sample.clinic).
  - exact milo_typed.
  - exact milo_again_typed.
  - exact sample_pets_typed.
  - right. repeat split; run.
  - run.
Defined.

Lemma pet_updated_witness :
  ∃ updated,
    updatePet (Some "u-ana") "pet:u-ana:1714000000000" (Some Cases.weight) Sample.now
      Sample.clinic
    = (Json 200 {[ "pet" := VObj updated ]},
       <[ "pet:u-ana:1714000000000" := updated ]> Sample.clinic)
    ∧ field updated "weight" = VStr "31 kg"
    ∧ field updated "name" = VStr "Rex".
Proof.
  destruct (pet_updated Sample.clinic "u-ana" "pet:u-ana:1714000000000" Sample.rex
              Cases.weight Sample.now) as (updated & Hr & _ & Hfields).
  - run.
  - left. run.
  - exists updated. split; [done|]. split.
    + by rewrite (Hfields "weight").
    + by rewrite (Hfields "name").
Defined.


Lemma staff_only_routes_witness :
  getAllPets (Some "u-ana") Sample.clinic
  = (Json 403 (error "Forbidden: Staff access required"), Sample.clinic).
Proof.
  destruct (staff_only_routes (RT := Host.utc) Sample.clinic "u-ana" None "block:2024-05-02"
              Sample.now sample_ana_is_not_staff) as [H _].
  exact H.
Defined.

Lemma createBlock_keeps_keyed_witness :
  blocks_keyed (createBlock (Some "u-vet") (Some Cases.training) Sample.now
                  Sample.clinic).2.
Proof. apply createBlock_keeps_keyed. exact sample_blocks_keyed. Defined.


Lemma block_lifted_witness :
  no_block_on (deleteBlock (Some "u-vet") "block:2024-05-02" Sample.clinic).2
    1714644000000.
Proof.
  destruct (block_lifted (RT := Host.utc) Sample.clinic "u-vet" 1714644000000
              sample_blocks_keyed sample_vet_is_staff) as (_ & Hopen & _).
  exact Hopen.
Defined.

Lemma block_create_delete_witness :
  deleteBlock (Some "u-vet") ("block:" +:+ "2024-05-06")
    (createBlock (Some "u-vet") (Some Cases.training) Sample.now Sample.clinic).2
  = (Json 200 {[ "deleted" := VStr ("block:" +:+ "2024-05-06") ]}, Sample.clinic).
Proof.
  destruct (block_create_delete Sample.clinic "u-vet" "2024-05-06" Cases.training
              Sample.now sample_vet_is_staff) as [_ Hback].
  - run.
  - done.
  - run.
  - exact Hback.
Defined.





